(** * TextRank preprocessing endpoint of the kiwi service

    Shallow embedding of [textrank_endpoint.py]: the input validator and
    the request handler [preprocess_for_textrank] built by
    [create_textrank_preprocessing_endpoint], together with the
    properties of the pipeline; and of the five POST handlers of
    [kiwi_service.py], which share the analyzer with it.

    Conventions.
    - A Python [str] is a [string] holding its UTF-8 encoding.  The two
      [str] methods the module calls, [lower] and [strip], are defined by
      the Unicode database; they are fields of [Runtime], next to the
      analyzer.
    - [kiwi_instance] is the external analyzer, at the types kiwipiepy
      gives its answers: a token has a [str] form and a [str] tag.  Its
      two methods return a value or raise; what they raise is an
      [Exception] of the library, kept by its message.
    - A handler run yields the HTTP response together with the ordered
      list of calls made on [kiwi_instance].  The logger is a write-only
      channel and is left out.
    - An integer division result, a Python [float], is kept as the exact
      quotient in [Q]. *)

From Stdlib Require Import QArith Ascii.
From stdpp Require Import gmap strings list fin_maps.

Local Set Warnings "-register-all".

(** ** Python values and exceptions *)

(** The value of [request.json]: a parsed JSON document, [JNull] being
    Python's [None]. *)
Inductive json :=
| JNull
| JBool (b : bool)
| JInt (z : Z)
| JFloat (q : Q)
| JStr (s : string)
| JArr (l : list json)
| JObj (m : gmap string json).

(** Python truth value testing, as used by [not data], [not text] and
    [if remove_stopwords]. *)
Definition truthy (v : json) : bool :=
  match v with
  | JNull => false
  | JBool b => b
  | JInt z => negb (z =? 0)%Z
  | JFloat q => negb (Qeq_bool q 0)
  | JStr s => negb (String.eqb s "")
  | JArr l => match l with [] => false | _ :: _ => true end
  | JObj m => negb (bool_decide (m = ∅))
  end.

Definition type_name (v : json) : string :=
  match v with
  | JNull => "NoneType"
  | JBool _ => "bool"
  | JInt _ => "int"
  | JFloat _ => "float"
  | JStr _ => "str"
  | JArr _ => "list"
  | JObj _ => "dict"
  end.

Inductive exception :=
| TextRankPreprocessingError (msg : string)
| AttributeError (msg : string)
| IndexError (msg : string)
| ZeroDivisionError (msg : string)
| LibraryError (msg : string).

(** [str(e)] *)
Definition str (e : exception) : string :=
  match e with
  | TextRankPreprocessingError msg => msg
  | AttributeError msg => msg
  | IndexError msg => msg
  | ZeroDivisionError msg => msg
  | LibraryError msg => msg
  end.

(** ** Raising computations *)

Inductive result (E A : Type) :=
| Return (a : A)
| Raise (e : E).
Arguments Return {E A} a.
Arguments Raise {E A} e.

Definition raising (A : Type) : Type := result exception A.

#[global] Instance raising_ret : MRet raising := λ A a, Return a.
#[global] Instance raising_bind : MBind raising := λ A B f m,
  match m with
  | Return a => f a
  | Raise e => Raise e
  end.

(** The truth value of a list. *)
Definition nonempty {A} (l : list A) : bool :=
  match l with
  | [] => false
  | _ :: _ => true
  end.

(** [l[i]] on a list. *)
Definition getitem {A} (l : list A) (i : nat) : raising A :=
  match l !! i with
  | Some x => Return x
  | None => Raise (IndexError "list index out of range")
  end.

(** [obj.get(key, default)]: a [dict] method; any other JSON value has no
    attribute [get]. *)
Definition get (obj : json) (key : string) (dflt : json) : raising json :=
  match obj with
  | JObj m => Return (default dflt (m !! key))
  | _ => Raise (AttributeError
           ("'" +:+ type_name obj +:+ "' object has no attribute 'get'"))
  end.

(** ** Calls on the analyzer *)

Inductive event :=
| SplitIntoSents (text : string)
| Analyze (sent_text : string).

(** A computation that may call [kiwi_instance]: the calls it made, in
    order, and how it ended. *)
Record py (A : Type) := Py { calls : list event; outcome : raising A }.
Arguments Py {A} calls outcome.
Arguments calls {A} p.
Arguments outcome {A} p.

#[global] Instance py_ret : MRet py := λ A a, Py [] (Return a).
#[global] Instance py_bind : MBind py := λ A B f m,
  match outcome m with
  | Return a => Py (calls m ++ calls (f a)) (outcome (f a))
  | Raise e => Py (calls m) (Raise e)
  end.

Definition pure {A} (r : raising A) : py A := Py [] r.

(** [try: body except Exception as e: handler] *)
Definition try_except {A} (body : py A) (handler : exception → py A) : py A :=
  match outcome body with
  | Return a => body
  | Raise e => Py (calls body ++ calls (handler e)) (outcome (handler e))
  end.

(** ** The analyzer interface *)

(** A morpheme of kiwipiepy: [morpheme[0]] is [form], [morpheme[1]] is
    [tag]. *)
Record Token := { form : string; tag : string; start : nat; len : nat }.

(** A span returned by [split_into_sents]; only [.text] is read. *)
Record Sentence := { text : string; sent_start : nat; sent_end : nat }.

(** [kiwi_instance].  [analyze] returns the candidates by rank, each a
    pair of its morphemes and its score. *)
Record Kiwi := {
  split_into_sents : string → result string (list Sentence);
  analyze : string → result string (list (list Token * Q))
}.

(** A call on the analyzer: recorded, and a library failure becomes a
    raised exception. *)
Definition call {A} (ev : event) (r : result string A) : py A :=
  Py [ev] match r with
          | Return a => Return a
          | Raise msg => Raise (LibraryError msg)
          end.

(** ** The module *)

Definition KOREAN_STOPWORDS : gset string :=
  list_to_set [
    "이"; "그"; "저"; "것"; "수"; "등"; "들"; "및"; "에"; "에서"; "의"; "을"; "를";
    "이다"; "있다"; "하다"; "이런"; "그런"; "저런"; "한"; "이"; "그"; "저"; "와"; "과";
    "으로"; "로"; "에게"; "뿐"; "다"; "도"; "만"; "까지"; "에는"; "랑"; "이라"; "며";
    "거나"; "에도"; "든지"
  ].

(** The dict appended to [processed_sentences]. *)
Record ProcessedSentence := {
  index : nat;
  sentence : string;
  tokens : list string;
  normalized : list string;
  posTags : list string;
  tokenCount : nat
}.

Record Stats := {
  totalTokens : nat;
  avgTokensPerSentence : Q;
  keyTermCount : nat
}.

(** [response_data] *)
Record PreprocessingResult := {
  requestId : string;
  sentences : list string;
  processedSentences : list ProcessedSentence;
  keyTerms : list string;
  sentenceCount : nat;
  stats : Stats
}.

(** What the handler returns: [jsonify(response_data)] has status 200,
    [jsonify({'error': .., 'requestId': ..}), status] the given one. *)
Inductive response :=
| Success (body : PreprocessingResult)
| Failure (status : nat) (error : string) (request_id : string).

(** What the module takes from its environment: the [str] methods
    [lower] and [strip], and the analyzer the endpoint is created with. *)
Class Runtime := {
  lower : string → string;
  strip : string → string;
  kiwi_instance : Kiwi
}.

Section Endpoint.

Context {runtime : Runtime}.

Definition validate_input (data : json) : raising string :=
  if negb (truthy data) then
    Raise (TextRankPreprocessingError "요청 데이터가 비어있습니다")
  else
    text ← get data "text" JNull;
    if negb (truthy text) then
      Raise (TextRankPreprocessingError "텍스트가 제공되지 않았습니다")
    else
      match text with
      | JStr text =>
          if (String.length (strip text) =? 0)%nat then
            Raise (TextRankPreprocessingError "텍스트가 비어있습니다")
          else Return text
      | _ => Raise (TextRankPreprocessingError "텍스트는 문자열이어야 합니다")
      end.

Definition columns : Type := list string * list string * list string.

(** The loop over the morphemes of the selected candidate. *)
Definition extract_step (acc : columns) (morpheme : Token) : columns :=
  let '(tokens, normalized, pos_tags) := acc in
  (tokens ++ [form morpheme],
   normalized ++ [lower (form morpheme)],
   pos_tags ++ [tag morpheme]).

Definition extract (analysis : list Token) : columns :=
  foldl extract_step ([], [], []) analysis.

(** The stopword loop, [for i, token in enumerate(normalized)], from
    position [i] on; [acc] holds the three filtered lists. *)
Fixpoint filter_loop (tokens normalized pos_tags : list string)
    (i : nat) (rest : list string) (acc : columns) : raising columns :=
  match rest with
  | [] => Return acc
  | token :: rest =>
      if bool_decide (token ∉ KOREAN_STOPWORDS) then
        let '(filtered_tokens, filtered_normalized, filtered_pos_tags) := acc in
        t ← getitem tokens i;
        n ← getitem normalized i;
        p ← getitem pos_tags i;
        filter_loop tokens normalized pos_tags (S i) rest
          (filtered_tokens ++ [t], filtered_normalized ++ [n],
           filtered_pos_tags ++ [p])
      else filter_loop tokens normalized pos_tags (S i) rest acc
  end.

(** The body of the per-sentence [try]. *)
Definition process_sentence (remove_stopwords : json) (idx : nat)
    (sent_text : string) : py ProcessedSentence :=
  ranked ← call (Analyze sent_text) (analyze kiwi_instance sent_text);
  best ← pure (getitem ranked 0);
  let analysis := best.1 in
  let '(tokens, normalized, pos_tags) := extract analysis in
  '(filtered_tokens, filtered_normalized, filtered_pos_tags) ←
    pure (if truthy remove_stopwords
          then filter_loop tokens normalized pos_tags 0 normalized ([], [], [])
          else Return (tokens, normalized, pos_tags));
  mret {| index := idx;
          sentence := sent_text;
          tokens := filtered_tokens;
          normalized := filtered_normalized;
          posTags := filtered_pos_tags;
          tokenCount := length filtered_tokens |}.

(** [for idx, sent_text in enumerate(sentence_texts)], from position
    [idx] on. *)
Fixpoint sentence_loop (remove_stopwords : json) (idx : nat)
    (sentence_texts : list string)
    (processed_sentences : list ProcessedSentence)
    : py (list ProcessedSentence) :=
  match sentence_texts with
  | [] => mret processed_sentences
  | sent_text :: rest =>
      processed_sentences ←
        try_except
          (s ← process_sentence remove_stopwords idx sent_text;
           mret (processed_sentences ++ [s]))
          (λ _, mret processed_sentences);
      sentence_loop remove_stopwords (S idx) rest processed_sentences
  end.

(** [s.startswith(p)] *)
Definition startswith (s p : string) : bool := String.prefix p s.

Definition is_key_tag (tag : string) : bool :=
  startswith tag "N" || startswith tag "V" || String.eqb tag "VA".

(** [for i, tag in enumerate(s['posTags'])], from position [i] on. *)
Fixpoint tag_loop (s : ProcessedSentence) (i : nat) (rest : list string)
    (key_terms : gset string) : raising (gset string) :=
  match rest with
  | [] => Return key_terms
  | tag :: rest =>
      if is_key_tag tag then
        t ← getitem (normalized s) i;
        tag_loop s (S i) rest (key_terms ∪ {[t]})
      else tag_loop s (S i) rest key_terms
  end.

(** [for s in processed_sentences] *)
Fixpoint key_term_loop (processed_sentences : list ProcessedSentence)
    (key_terms : gset string) : raising (gset string) :=
  match processed_sentences with
  | [] => Return key_terms
  | s :: rest =>
      key_terms ← tag_loop s 0 (posTags s) key_terms;
      key_term_loop rest key_terms
  end.

(** [sum(s['tokenCount'] for s in processed_sentences)] *)
Definition sum_token_counts (processed_sentences : list ProcessedSentence) : nat :=
  foldl (λ acc s, acc + tokenCount s) 0 processed_sentences.

(** [a / b] on two non-negative integers.  The float it yields is kept
    as the exact quotient. *)
Definition truediv (a b : nat) : raising Q :=
  if (b =? 0)%nat then Raise (ZeroDivisionError "division by zero")
  else Return (inject_Z (Z.of_nat a) / inject_Z (Z.of_nat b))%Q.

(** The [stats] entry of [response_data]. *)
Definition make_stats (processed_sentences : list ProcessedSentence)
    (key_terms : gset string) : raising Stats :=
  let total := sum_token_counts processed_sentences in
  avg ← (if nonempty processed_sentences
         then truediv (sum_token_counts processed_sentences)
                      (length processed_sentences)
         else Return 0%Q);
  mret {| totalTokens := total;
          avgTokensPerSentence := avg;
          keyTermCount := size key_terms |}.

(** [[sent.text for sent in sentences]] *)
Definition texts_of (sentences : list Sentence) : list string :=
  map text sentences.

(** The inside of the outer [try].  [list(key_terms)] lists the set in an
    order Python does not fix; [elements] is one such listing. *)
Definition handle (request_id : string) (data : json) : py response :=
  text ← pure (validate_input data);
  remove_stopwords ← pure (get data "removeStopwords" (JBool true));
  sentences ← call (SplitIntoSents text) (split_into_sents kiwi_instance text);
  let sentence_texts := texts_of sentences in
  processed_sentences ← sentence_loop remove_stopwords 0 sentence_texts [];
  key_terms ← pure (key_term_loop processed_sentences ∅);
  stats ← pure (make_stats processed_sentences key_terms);
  mret (Success {|
    requestId := request_id;
    sentences := sentence_texts;
    processedSentences := processed_sentences;
    keyTerms := elements key_terms;
    sentenceCount := length sentence_texts;
    stats := stats |}).

(** The handler: the calls it made on [kiwi_instance] and its response. *)
Definition preprocess_for_textrank (request_id : string) (data : json)
    : list event * response :=
  let run := handle request_id data in
  (calls run,
   match outcome run with
   | Return r => r
   | Raise (TextRankPreprocessingError msg) =>
       Failure 400 ("TextRank 전처리 검증 오류: " +:+ msg) request_id
   | Raise e =>
       Failure 500 ("TextRank 전처리 중 오류 발생: " +:+ str e) request_id
   end).

(** ** Auxiliary definitions for the statements *)

(** The normalized form of a morpheme, and the stopword test on it. *)
Definition norm (m : Token) : string := lower (form m).
Definition kept (m : Token) : Prop := norm m ∉ KOREAN_STOPWORDS.

(** The records of the sentences whose processing returns, in order:
    what the sentence loop collects from position [idx] on. *)
Fixpoint survivors (remove_stopwords : json) (idx : nat)
    (sentence_texts : list string) : list ProcessedSentence :=
  match sentence_texts with
  | [] => []
  | sent_text :: rest =>
      match outcome (process_sentence remove_stopwords idx sent_text) with
      | Return s => s :: survivors remove_stopwords (S idx) rest
      | Raise _ => survivors remove_stopwords (S idx) rest
      end
  end.

(** Whether processing the sentence at position [i] returns. *)
Definition survives (remove_stopwords : json) (sentence_texts : list string)
    (i : nat) : bool :=
  match sentence_texts !! i with
  | Some sent_text =>
      match outcome (process_sentence remove_stopwords i sent_text) with
      | Return _ => true
      | Raise _ => false
      end
  | None => false
  end.

(** The request was validated and segmented: [text] is the validated
    text, [remove_stopwords] the option as read, [spans] the segmenter's
    answer. *)
Definition accepted (data : json) (text : string) (remove_stopwords : json)
    (spans : list Sentence) : Prop :=
  validate_input data = Return text
  ∧ get data "removeStopwords" (JBool true) = Return remove_stopwords
  ∧ split_into_sents kiwi_instance text = Return spans.

(** The three sequences of a record have the length [tokenCount]. *)
Definition aligned (s : ProcessedSentence) : Prop :=
  length (tokens s) = tokenCount s
  ∧ length (normalized s) = tokenCount s
  ∧ length (posTags s) = tokenCount s.

#[global] Instance kept_dec (m : Token) : Decision (kept m) :=
  decide (norm m ∉ KOREAN_STOPWORDS).

End Endpoint.

(** ** The endpoints of [kiwi_service.py]

    The five POST handlers around the module-level [kiwi], which is the
    instance handed to [create_textrank_preprocessing_endpoint], hence
    [kiwi_instance].  A handler catches every [Exception] and answers
    with [str(e)], so an exception is kept as its message. *)

(** What the handlers take from their environment besides [Runtime]:
    [kiwi.tokenize] on a [str] ([kiwi_tokenize]); [len] on a [str]; the messages of the
    exceptions the interpreter raises on [x in data], [data['text']] and
    [text[:50]]; and, for a [text] that is a list, which kiwipiepy takes
    as a batch, what the handler does from its call on [kiwi] on. *)
Inductive endpoint :=
| Morpheme
| SentenceSplit
| Tokenize
| Preprocess
| AnalyzeSimple.

Inductive kiwi_call :=
| CallAnalyze (text : string)
| CallSplitIntoSents (text : string)
| CallTokenize (text : string).

(** A handler at work: the calls made on [kiwi], in order, and the
    value reached or the message of the exception raised. *)
Record served (A : Type) :=
  Served { made : list kiwi_call; ended : result string A }.
Arguments Served {A} made ended.
Arguments made {A} s.
Arguments ended {A} s.

#[global] Instance served_ret : MRet served := λ A a, Served [] (Return a).
#[global] Instance served_bind : MBind served := λ A B f m,
  match ended m with
  | Return a => Served (made m ++ made (f a)) (ended (f a))
  | Raise e => Served (made m) (Raise e)
  end.

(** The dict of one token in the answer of [/analyze]. *)
Record AnalyzedToken := {
  a_form : string;
  a_tag : string;
  a_start : nat;
  a_end : nat
}.

(** What a handler returns: one of the [jsonify] bodies with status 200,
    or [jsonify({'error': ..}), status]. *)
Inductive reply :=
| MorphemeReply (result : list (list (string * string * nat * nat)))
| SentenceSplitReply (sentences : list string) (count : nat)
| TokenizeReply (tokens : list string) (count : nat)
| PreprocessReply (sentences : list string) (tokenized : list (list string))
| AnalyzeReply (tokens : list AnalyzedToken)
| ErrorReply (status : nat) (error : string).

Class Service := {
  kiwi_tokenize : string → result string (list Token);
  len_str : string → nat;
  not_a_container : json → string;
  not_subscriptable : json → string;
  not_sliceable : json → string;
  batch : endpoint → list json → served reply
}.

(** [sub in s] on two [str]. *)
Fixpoint substring_in (sub s : string) : bool :=
  String.prefix sub s
  || match s with
     | EmptyString => false
     | String _ s' => substring_in sub s'
     end.

(** [key in data] *)
Definition contains_key `{Service} (data : json) (key : string)
    : result string bool :=
  match data with
  | JObj m => Return (bool_decide (is_Some (m !! key)))
  | JArr l =>
      Return (existsb (λ v, match v with
                            | JStr s => String.eqb s key
                            | _ => false
                            end) l)
  | JStr s => Return (substring_in key s)
  | _ => Raise (not_a_container data)
  end.

(** [data[key]] with a [str] key *)
Definition subscript `{Service} (data : json) (key : string)
    : result string json :=
  match data with
  | JObj m =>
      match m !! key with
      | Some v => Return v
      | None => Raise ("'" +:+ key +:+ "'")
      end
  | _ => Raise (not_subscriptable data)
  end.

(** A [text] that went through [text[:50]]: a [str] or a list. *)
Inductive text_arg :=
| StrText (s : string)
| ListText (l : list json).

(** [text[:50]], evaluated for the log line. *)
Definition slice50 `{Service} (text : json) : result string text_arg :=
  match text with
  | JStr s => Return (StrText s)
  | JArr l => Return (ListText l)
  | _ => Raise (not_sliceable text)
  end.

Section Handlers.

Context {runtime : Runtime} {service : Service}.

(** A call on [kiwi]. *)
Definition ask {A} (c : kiwi_call) (r : result string A) : served A :=
  Served [c] r.

Definition raised {A} (r : result string A) : served A := Served [] r.

(** The opening the five handlers share, down to the log line; [None]
    is the early [return] of the 400 answer. *)
Definition requested_text (data : json) : result string (option text_arg) :=
  if negb (truthy data) then Return None
  else
    match contains_key data "text" with
    | Raise e => Raise e
    | Return false => Return None
    | Return true =>
        match subscript data "text" with
        | Raise e => Raise e
        | Return text =>
            match slice50 text with
            | Raise e => Raise e
            | Return arg => Return (Some arg)
            end
        end
    end.

(** A handler: the opening, then its own part on the text, inside
    [try: .. except Exception as e: return jsonify({'error': str(e)}), 500]. *)
Definition serve (ep : endpoint) (own : string → served reply) (data : json)
    : list kiwi_call * reply :=
  let run :=
    match requested_text data with
    | Raise e => Served [] (Raise e)
    | Return None => Served [] (Return (ErrorReply 400 "No text provided"))
    | Return (Some (StrText text)) => own text
    | Return (Some (ListText l)) => batch ep l
    end in
  (made run,
   match ended run with
   | Return r => r
   | Raise e => ErrorReply 500 e
   end).

(** [(token[0], token[1], token[2], token[3])] *)
Definition as_tuple (token : Token) : string * string * nat * nat :=
  (form token, tag token, start token, len token).

Definition morpheme_own (text : string) : served reply :=
  result ← ask (CallAnalyze text) (analyze kiwi_instance text);
  let formatted_result :=
    foldl (λ formatted_result '(tokens, _),
             formatted_result ++ [as_tuple <$> tokens]) [] result in
  mret (MorphemeReply formatted_result).

Definition sentence_split_own (text : string) : served reply :=
  sentences ← ask (CallSplitIntoSents text)
                  (split_into_sents kiwi_instance text);
  let sentence_texts := texts_of sentences in
  mret (SentenceSplitReply sentence_texts (length sentence_texts)).

Definition tokenize_own (text : string) : served reply :=
  tokens ← ask (CallTokenize text) (kiwi_tokenize text);
  let token_forms := form <$> tokens in
  mret (TokenizeReply token_forms (length token_forms)).

(** [for sent in sentence_texts] of [/preprocess] *)
Fixpoint tokenize_loop (sentence_texts : list string)
    (tokenized : list (list string)) : served (list (list string)) :=
  match sentence_texts with
  | [] => mret tokenized
  | sent :: rest =>
      tokens ← ask (CallTokenize sent) (kiwi_tokenize sent);
      tokenize_loop rest (tokenized ++ [form <$> tokens])
  end.

Definition preprocess_own (text : string) : served reply :=
  sentences ← ask (CallSplitIntoSents text)
                  (split_into_sents kiwi_instance text);
  let sentence_texts := texts_of sentences in
  tokenized ← tokenize_loop sentence_texts [];
  mret (PreprocessReply sentence_texts tokenized).

Definition analyze_own (text : string) : served reply :=
  tokens ← ask (CallTokenize text) (kiwi_tokenize text);
  let result :=
    foldl (λ result token,
             result ++ [{| a_form := form token;
                           a_tag := tag token;
                           a_start := start token;
                           a_end := start token + len_str (form token) |}])
          [] tokens in
  mret (AnalyzeReply result).

(** The five handlers; [analyze_simple] is the handler [analyze] of the
    route [/analyze]. *)
Definition morpheme : json → list kiwi_call * reply :=
  serve Morpheme morpheme_own.
Definition sentence_split : json → list kiwi_call * reply :=
  serve SentenceSplit sentence_split_own.
Definition tokenize : json → list kiwi_call * reply :=
  serve Tokenize tokenize_own.
Definition preprocess : json → list kiwi_call * reply :=
  serve Preprocess preprocess_own.
Definition analyze_simple : json → list kiwi_call * reply :=
  serve AnalyzeSimple analyze_own.

(** The handler behind each route. *)
Definition handler (ep : endpoint) : json → list kiwi_call * reply :=
  match ep with
  | Morpheme => morpheme
  | SentenceSplit => sentence_split
  | Tokenize => tokenize
  | Preprocess => preprocess
  | AnalyzeSimple => analyze_simple
  end.

(** The first call a handler makes on [kiwi] for a [str] text. *)
Definition first_call (ep : endpoint) (text : string) : kiwi_call :=
  match ep with
  | Morpheme => CallAnalyze text
  | SentenceSplit | Preprocess => CallSplitIntoSents text
  | Tokenize | AnalyzeSimple => CallTokenize text
  end.

End Handlers.

(** ** Auxiliary definitions for the further properties *)

(** A record next to the record of the same sentence without filtering:
    same place, and sequences that only lost elements. *)
Definition dropped_only (s1 s2 : ProcessedSentence) : Prop :=
  index s1 = index s2
  ∧ sentence s1 = sentence s2
  ∧ tokens s1 `sublist_of` tokens s2
  ∧ normalized s1 `sublist_of` normalized s2
  ∧ posTags s1 `sublist_of` posTags s2
  ∧ tokenCount s1 ≤ tokenCount s2.

(** ** A test double for the analyzer

    Used to run the handler on concrete requests.  [lower] and [strip]
    act on ASCII only, which is what [str.lower] and [str.strip] do on
    text made of ASCII and Hangul. *)
Module Demo.

Definition lower_ascii (c : ascii) : ascii :=
  let n := nat_of_ascii c in
  if (65 <=? n)%nat && (n <=? 90)%nat then ascii_of_nat (n + 32) else c.

Fixpoint ascii_lower (s : string) : string :=
  match s with
  | EmptyString => EmptyString
  | String c s => String (lower_ascii c) (ascii_lower s)
  end.

Definition is_space (c : ascii) : bool :=
  let n := nat_of_ascii c in
  (n =? 32)%nat || ((9 <=? n)%nat && (n <=? 13)%nat)
  || ((28 <=? n)%nat && (n <=? 31)%nat).

Fixpoint lstrip (s : string) : string :=
  match s with
  | EmptyString => EmptyString
  | String c s' => if is_space c then lstrip s' else s
  end.

Definition ascii_strip (s : string) : string :=
  String.rev (lstrip (String.rev (lstrip s))).

Definition tok (form tag : string) : Token :=
  {| form := form; tag := tag; start := 0; len := String.length form |}.

(** The parses the double knows; any other sentence makes it raise. *)
Definition parses : list (string * list (list Token * Q)) :=
  [ ("고양이가 빠르게 달린다.",
      [ ([tok "고양이" "NNG"; tok "가" "JKS"; tok "빠르" "VA"; tok "게" "EC";
          tok "달리" "VV"; tok "ᆫ다" "EF"; tok "." "SF"], (-12 # 1)%Q);
        ([tok "고양" "NNG"; tok "이" "JKS"], (-30 # 1)%Q) ]);
    ("Kiwi 는 빠르다.",
      [ ([tok "Kiwi" "SL"; tok "는" "JX"; tok "빠르" "VA"; tok "다" "EF";
          tok "." "SF"], (-9 # 1)%Q) ]);
    ("이 고양이",
      [ ([tok "이" "MM"; tok "고양이" "NNG"], (-5 # 1)%Q) ]);
    ("???", []) ].

Definition lookup_parse (sent_text : string)
    : option (list (list Token * Q)) :=
  (λ found, found.2.2) <$> list_find (λ p, p.1 = sent_text) parses.

Definition span (text : string) : Sentence :=
  {| text := text; sent_start := 0; sent_end := String.length text |}.

(** The double splits at ["|"] and fails on text containing ["#"]. *)
Fixpoint split_bar (cur : string) (s : string) : list string :=
  match s with
  | EmptyString => [String.rev cur]
  | String c s' =>
      if Ascii.eqb c "|"%char then String.rev cur :: split_bar EmptyString s'
      else split_bar (String c cur) s'
  end.

Fixpoint has_hash (s : string) : bool :=
  match s with
  | EmptyString => false
  | String c s' => Ascii.eqb c "#"%char || has_hash s'
  end.

Definition kiwi : Kiwi := {|
  split_into_sents text :=
    if has_hash text then Raise "segmentation failed"%string
    else Return (span <$> split_bar EmptyString text);
  analyze sent_text :=
    match lookup_parse sent_text with
    | Some ranked => Return ranked
    | None => Raise "analysis failed"%string
    end
|}.

Definition runtime : Runtime := {|
  lower := ascii_lower;
  strip := ascii_strip;
  kiwi_instance := kiwi
|}.

Definition run (request_id : string) (data : json) : list event * response :=
  preprocess_for_textrank (runtime := runtime) request_id data.

Definition request (text : string) (remove_stopwords : bool) : json :=
  JObj (<["text" := JStr text]> (<["removeStopwords" := JBool remove_stopwords]> ∅)).

(** Payloads the validator refuses. *)
Definition no_text : json := JObj (<["removeStopwords" := JBool true]> ∅).
Definition number_text : json := JObj (<["text" := JInt 5]> ∅).

(** A text of five sentences; the double fails on the third. *)
Definition five : string :=
  "고양이가 빠르게 달린다.|Kiwi 는 빠르다.|nope|이 고양이|Kiwi 는 빠르다.".

Definition five_spans : list Sentence := span <$> split_bar EmptyString five.

Definition no_result : PreprocessingResult := {|
  requestId := EmptyString;
  sentences := [];
  processedSentences := [];
  keyTerms := [];
  sentenceCount := 0;
  stats := {| totalTokens := 0; avgTokensPerSentence := 0;
              keyTermCount := 0 |}
|}.

Definition body_of (r : list event * response) : PreprocessingResult :=
  match r.2 with
  | Success body => body
  | Failure _ _ _ => no_result
  end.

(** The answers of the handler on [five], with and without filtering,
    and the record of the fourth sentence in each. *)
Definition filtered : PreprocessingResult :=
  Eval vm_compute in body_of (run "r1" (request five true)).

Definition unfiltered : PreprocessingResult :=
  Eval vm_compute in body_of (run "r2" (request five false)).

Definition filtered_fourth : ProcessedSentence :=
  Eval vm_compute in default
    {| index := 0; sentence := EmptyString; tokens := []; normalized := [];
       posTags := []; tokenCount := 0 |}
    (processedSentences filtered !! 2).

Definition unfiltered_fourth : ProcessedSentence :=
  Eval vm_compute in default
    {| index := 0; sentence := EmptyString; tokens := []; normalized := [];
       posTags := []; tokenCount := 0 |}
    (processedSentences unfiltered !! 2).

End Demo.

(** ** A test double for the service *)
Module ServiceDemo.

Definition tokenize (text : string) : result string (list Token) :=
  match Demo.lookup_parse text with
  | Some ((tokens, _) :: _) => Return tokens
  | _ => Raise "tokenization failed"%string
  end.

(** The number of code points of a UTF-8 string. *)
Fixpoint code_points (s : string) : nat :=
  match s with
  | EmptyString => 0
  | String c s' =>
      let n := nat_of_ascii c in
      (if (128 <=? n)%nat && (n <? 192)%nat then 0 else 1) + code_points s'
  end.

Definition service : Service := {|
  kiwi_tokenize := tokenize;
  len_str := code_points;
  not_a_container v :=
    "argument of type '" +:+ type_name v +:+ "' is not iterable";
  not_subscriptable v :=
    "'" +:+ type_name v +:+ "' indices must be integers";
  not_sliceable v := "'" +:+ type_name v +:+ "' object is not subscriptable";
  batch _ _ := Served [] (Raise "batch of texts"%string)
|}.

Definition handle (ep : endpoint) (data : json) : list kiwi_call * reply :=
  handler (runtime := Demo.runtime) (service := service) ep data.

(** Payloads: a text none of whose sentences has a parse, two sentences
    that tokenize, three sentences the second of which does not, and a
    payload with a truthy option that is not a boolean and an entry the
    handler does not know. *)
Definition hopeless : json := Demo.request "nope|???" true.
Definition two : string := "고양이가 빠르게 달린다.|이 고양이".
Definition three : string := "고양이가 빠르게 달린다.|nope|이 고양이".
Definition loose : gmap string json :=
  <["text" := JStr Demo.five]>
    (<["removeStopwords" := JStr "no"]> (<["lang" := JStr "ko"]> ∅)).
Definition strict : gmap string json :=
  <["text" := JStr Demo.five]> (<["removeStopwords" := JBool true]> ∅).
Definition with_option (b : bool) : gmap string json :=
  <["text" := JStr Demo.five]> (<["removeStopwords" := JBool b]> ∅).
Definition blank : gmap string json := <["text" := JStr "   "]> ∅.
Definition two_sentences : gmap string json := <["text" := JStr two]> ∅.
Definition three_sentences : gmap string json := <["text" := JStr three]> ∅.
Definition one_sentence : gmap string json :=
  <["text" := JStr "이 고양이"]> ∅.

Definition nothing : PreprocessingResult :=
  Eval vm_compute in Demo.body_of (Demo.run "r3" hopeless).

End ServiceDemo.

(** ** Properties *)

Section Properties.

Context {runtime : Runtime}.

(** ** The morpheme loop *)

Lemma extract_from (analysis : list Token) (a b c : list string) :
  foldl extract_step (a, b, c) analysis
  = (a ++ (form <$> analysis), b ++ (norm <$> analysis),
     c ++ (tag <$> analysis)).
Proof.
  revert a b c.
  induction analysis as [|m analysis IH]; intros a b c; simpl.
  - by rewrite !app_nil_r.
  - rewrite IH. by rewrite <- !app_assoc.
Qed.

Lemma extract_columns (analysis : list Token) :
  extract analysis = (form <$> analysis, norm <$> analysis, tag <$> analysis).
Proof. unfold extract. by rewrite extract_from. Qed.

(** ** The stopword loop *)

Lemma getitem_lookup {A} (l : list A) i x :
  l !! i = Some x → getitem l i = Return x.
Proof. unfold getitem. by intros ->. Qed.

Lemma filter_loop_from (pre analysis : list Token) (a b c : list string) :
  filter_loop (form <$> pre ++ analysis) (norm <$> pre ++ analysis)
    (tag <$> pre ++ analysis) (length pre) (norm <$> analysis) (a, b, c)
  = Return (a ++ (form <$> filter kept analysis),
            b ++ (norm <$> filter kept analysis),
            c ++ (tag <$> filter kept analysis)).
Proof.
  revert pre a b c.
  induction analysis as [|m analysis IH]; intros pre a b c.
  - simpl. by rewrite !app_nil_r.
  - assert (Hm : ∀ f : Token → string,
              (f <$> pre ++ m :: analysis) !! length pre = Some (f m)).
    { intros f. rewrite list_lookup_fmap, lookup_app_r by lia.
      by rewrite Nat.sub_diag. }
    specialize (IH (pre ++ [m])).
    rewrite <- !app_assoc, length_app in IH. simpl in IH.
    rewrite Nat.add_1_r in IH.
    change (norm <$> m :: analysis) with (norm m :: (norm <$> analysis)).
    cbn [filter_loop]. rewrite filter_cons.
    destruct (decide (kept m)) as [Hk|Hk].
    + rewrite bool_decide_eq_true_2 by done.
      rewrite !(getitem_lookup _ _ _ (Hm _)). cbn [mbind raising_bind].
      rewrite IH, !fmap_cons.
      by rewrite <- !app_assoc.
    + rewrite bool_decide_eq_false_2 by done. apply IH.
Qed.

Lemma filter_loop_columns (analysis : list Token) :
  filter_loop (form <$> analysis) (norm <$> analysis) (tag <$> analysis)
    0 (norm <$> analysis) ([], [], [])
  = Return (form <$> filter kept analysis, norm <$> filter kept analysis,
            tag <$> filter kept analysis).
Proof. apply (filter_loop_from [] analysis [] [] []). Qed.

(** ** One sentence *)

Lemma process_sentence_run (remove_stopwords : json) idx sent_text :
  process_sentence remove_stopwords idx sent_text
  = Py [Analyze sent_text]
      match analyze kiwi_instance sent_text with
      | Return ((analysis, _) :: _) =>
          let chosen :=
            if truthy remove_stopwords then filter kept analysis
            else analysis in
          Return {| index := idx;
                    sentence := sent_text;
                    tokens := form <$> chosen;
                    normalized := norm <$> chosen;
                    posTags := tag <$> chosen;
                    tokenCount := length chosen |}
      | Return [] => Raise (IndexError "list index out of range")
      | Raise msg => Raise (LibraryError msg)
      end.
Proof.
  unfold process_sentence, call, pure, mbind, py_bind.
  destruct (analyze kiwi_instance sent_text) as [[|[analysis score] ?]|msg];
    cbn; try done.
  rewrite extract_from. cbn [app].
  destruct (truthy remove_stopwords); cbn.
  - rewrite filter_loop_columns. cbn. by rewrite length_fmap.
  - by rewrite length_fmap.
Qed.

Lemma process_sentence_calls remove_stopwords idx sent_text :
  calls (process_sentence remove_stopwords idx sent_text) = [Analyze sent_text].
Proof. by rewrite process_sentence_run. Qed.

Lemma process_sentence_aligned remove_stopwords idx sent_text s :
  outcome (process_sentence remove_stopwords idx sent_text) = Return s →
  aligned s ∧ index s = idx ∧ sentence s = sent_text.
Proof.
  rewrite process_sentence_run. cbn.
  destruct (analyze kiwi_instance sent_text) as [[|[analysis score] ?]|msg];
    try done.
  intros [= <-]. unfold aligned. cbn. by rewrite !length_fmap.
Qed.

(** ** The sentence loop *)

Lemma sentence_loop_run remove_stopwords idx sentence_texts processed :
  sentence_loop remove_stopwords idx sentence_texts processed
  = Py (Analyze <$> sentence_texts)
       (Return (processed ++ survivors remove_stopwords idx sentence_texts)).
Proof.
  revert idx processed.
  induction sentence_texts as [|sent_text rest IH]; intros idx processed.
  - cbn. by rewrite app_nil_r.
  - cbn [sentence_loop survivors].
    pose proof (process_sentence_calls remove_stopwords idx sent_text) as Hc.
    unfold try_except, mbind at 1 2, py_bind.
    destruct (process_sentence remove_stopwords idx sent_text)
      as [cs [s|e]]; cbn in Hc |- *; subst cs.
    + rewrite IH. cbn. by rewrite <- app_assoc.
    + by rewrite IH.
Qed.

Lemma survivors_aligned remove_stopwords idx sentence_texts :
  Forall aligned (survivors remove_stopwords idx sentence_texts).
Proof.
  revert idx.
  induction sentence_texts as [|sent_text rest IH]; intros idx; cbn.
  - constructor.
  - destruct (outcome (process_sentence remove_stopwords idx sent_text))
      as [s|e] eqn:Hs; [|apply IH].
    constructor; [|apply IH].
    by apply process_sentence_aligned in Hs as [? _].
Qed.

Lemma elem_of_survivors remove_stopwords idx sentence_texts s :
  s ∈ survivors remove_stopwords idx sentence_texts
  ↔ ∃ i sent_text,
      sentence_texts !! i = Some sent_text
      ∧ outcome (process_sentence remove_stopwords (idx + i) sent_text)
        = Return s.
Proof.
  revert idx.
  induction sentence_texts as [|sent_text rest IH]; intros idx; cbn.
  - split; [by intros ?%elem_of_nil | by intros (i & ? & ? & _)].
  - assert (Hrest : s ∈ survivors remove_stopwords (S idx) rest
              ↔ ∃ i sent_text',
                  (sent_text :: rest) !! S i = Some sent_text'
                  ∧ outcome (process_sentence remove_stopwords
                               (idx + S i) sent_text') = Return s).
    { rewrite IH. by setoid_rewrite Nat.add_succ_r. }
    destruct (outcome (process_sentence remove_stopwords idx sent_text))
      as [s0|e] eqn:Hs.
    + rewrite elem_of_cons, Hrest. split.
      * intros [->|(i & t & ? & ?)].
        -- exists 0, sent_text. by rewrite Nat.add_0_r.
        -- by exists (S i), t.
      * intros ([|i] & t & Hi & Ht).
        -- left. cbn in Hi. rewrite Nat.add_0_r in Ht. congruence.
        -- right. by exists i, t.
    + rewrite Hrest. split.
      * intros (i & t & ? & ?). by exists (S i), t.
      * intros ([|i] & t & Hi & Ht).
        -- cbn in Hi. rewrite Nat.add_0_r in Ht. congruence.
        -- by exists i, t.
Qed.

Lemma survives_middle remove_stopwords (pre rest : list string) sent_text :
  survives remove_stopwords (pre ++ sent_text :: rest) (length pre)
  = match outcome (process_sentence remove_stopwords (length pre) sent_text)
    with
    | Return _ => true
    | Raise _ => false
    end.
Proof.
  unfold survives. by rewrite lookup_app_r, Nat.sub_diag by lia.
Qed.

Lemma survivors_index_from remove_stopwords (pre rest : list string) :
  index <$> survivors remove_stopwords (length pre) rest
  = filter (λ i, survives remove_stopwords (pre ++ rest) i)
      (seq (length pre) (length rest)).
Proof.
  revert pre.
  induction rest as [|sent_text rest IH]; intros pre; [done|].
  specialize (IH (pre ++ [sent_text])).
  rewrite <- app_assoc, length_app, Nat.add_1_r in IH. cbn in IH.
  cbn [survivors length seq]. rewrite filter_cons, survives_middle.
  destruct (outcome (process_sentence remove_stopwords (length pre) sent_text))
    as [s|e] eqn:Hs.
  - rewrite decide_True by done. rewrite fmap_cons, IH.
    by apply process_sentence_aligned in Hs as (_ & -> & _).
  - rewrite decide_False by (by intros []). apply IH.
Qed.

Lemma survivors_index remove_stopwords sentence_texts :
  index <$> survivors remove_stopwords 0 sentence_texts
  = filter (λ i, survives remove_stopwords sentence_texts i)
      (seq 0 (length sentence_texts)).
Proof. apply (survivors_index_from remove_stopwords []). Qed.

Lemma survivors_length remove_stopwords idx sentence_texts :
  length (survivors remove_stopwords idx sentence_texts)
  ≤ length sentence_texts.
Proof.
  revert idx.
  induction sentence_texts as [|sent_text rest IH]; intros idx; cbn; [lia|].
  specialize (IH (S idx)).
  destruct (outcome (process_sentence remove_stopwords idx sent_text));
    cbn; lia.
Qed.

Lemma survivors_length_lt remove_stopwords idx sentence_texts :
  length (survivors remove_stopwords idx sentence_texts)
  < length sentence_texts
  ↔ ∃ i sent_text e,
      sentence_texts !! i = Some sent_text
      ∧ outcome (process_sentence remove_stopwords (idx + i) sent_text)
        = Raise e.
Proof.
  revert idx.
  induction sentence_texts as [|sent_text rest IH]; intros idx; cbn.
  - split; [lia | by intros (i & ? & ? & ? & _)].
  - pose proof (survivors_length remove_stopwords (S idx) rest) as Hle.
    destruct (outcome (process_sentence remove_stopwords idx sent_text))
      as [s|e] eqn:Hs; cbn.
    + rewrite <- Nat.succ_lt_mono, IH. split.
      * intros (i & t & e & ? & He). exists (S i), t, e.
        by rewrite Nat.add_succ_r.
      * intros ([|i] & t & e & Hi & He).
        -- cbn in Hi. rewrite Nat.add_0_r in He. congruence.
        -- exists i, t, e. by rewrite Nat.add_succ_r in He.
    + split; [|lia].
      intros _. exists 0, sent_text, e. by rewrite Nat.add_0_r.
Qed.

(** ** Key terms *)

Lemma is_key_tag_prefix (tg : string) :
  is_key_tag tg = true
  ↔ startswith tg "N" = true ∨ startswith tg "V" = true.
Proof.
  unfold is_key_tag. rewrite !orb_true_iff. split; [|tauto].
  intros [[?|?]|Heq]; [tauto..|].
  apply String.eqb_eq in Heq as ->. by right.
Qed.

Lemma tag_loop_run (s : ProcessedSentence) i (rest : list string)
    (key_terms : gset string) :
  i + length rest ≤ length (normalized s) →
  ∃ key_terms' : gset string,
    tag_loop s i rest key_terms = Return key_terms'
    ∧ ∀ t, t ∈ key_terms'
        ↔ t ∈ key_terms
          ∨ ∃ j tg, rest !! j = Some tg ∧ is_key_tag tg = true
                    ∧ normalized s !! (i + j) = Some t.
Proof.
  revert i key_terms.
  induction rest as [|tg rest IH]; intros i key_terms Hlen; cbn in *.
  - exists key_terms. split; [done|]. intros t. split; [tauto|].
    by intros [?|(j & ? & ? & _)].
  - assert (Hshift : ∀ (K : gset string) t,
      (t ∈ K ∨ ∃ j tg', rest !! j = Some tg' ∧ is_key_tag tg' = true
                        ∧ normalized s !! (S i + j) = Some t)
      ↔ (t ∈ K ∨ ∃ j tg', (tg :: rest) !! S j = Some tg'
                          ∧ is_key_tag tg' = true
                          ∧ normalized s !! (i + S j) = Some t)).
    { intros K t. by setoid_rewrite Nat.add_succ_r. }
    destruct (is_key_tag tg) eqn:Htg.
    + destruct (lookup_lt_is_Some_2 (normalized s) i) as [n Hn]; [lia|].
      rewrite (getitem_lookup _ _ _ Hn). cbn.
      destruct (IH (S i) (key_terms ∪ {[n]})) as (K' & -> & HK'); [lia|].
      exists K'. split; [done|]. intros t.
      rewrite HK', Hshift, elem_of_union, elem_of_singleton. split.
      * intros [[?| ->]|(j & tg' & ? & ? & ?)]; [by left| |].
        -- right. exists 0, tg. by rewrite Nat.add_0_r.
        -- right. by exists (S j), tg'.
      * intros [?|([|j] & tg' & Hj & ? & Ht)]; [by left; left| |].
        -- left; right. rewrite Nat.add_0_r in Ht. congruence.
        -- right. by exists j, tg'.
    + destruct (IH (S i) key_terms) as (K' & -> & HK'); [lia|].
      exists K'. split; [done|]. intros t. rewrite HK', Hshift. split.
      * intros [?|(j & tg' & ? & ? & ?)]; [by left|].
        right. by exists (S j), tg'.
      * intros [?|([|j] & tg' & Hj & Hk & Ht)]; [by left| |].
        -- cbn in Hj. congruence.
        -- right. by exists j, tg'.
Qed.

Lemma key_term_loop_run (processed : list ProcessedSentence)
    (key_terms : gset string) :
  Forall aligned processed →
  ∃ key_terms' : gset string,
    key_term_loop processed key_terms = Return key_terms'
    ∧ ∀ t, t ∈ key_terms'
        ↔ t ∈ key_terms
          ∨ ∃ s i tg, s ∈ processed ∧ posTags s !! i = Some tg
                      ∧ is_key_tag tg = true ∧ normalized s !! i = Some t.
Proof.
  intros Hal. revert key_terms.
  induction Hal as [|s processed Hs _ IH]; intros key_terms; cbn.
  - exists key_terms. split; [done|]. intros t. split; [tauto|].
    by intros [?|(? & ? & ? & ?%elem_of_nil & _)].
  - destruct (tag_loop_run s 0 (posTags s) key_terms) as (K1 & -> & HK1).
    { destruct Hs as (_ & ? & ?). lia. }
    cbn. destruct (IH K1) as (K2 & -> & HK2).
    exists K2. split; [done|]. intros t. rewrite HK2, HK1.
    setoid_rewrite elem_of_cons. split.
    + intros [[?|(j & tg & ? & ? & ?)]|(s' & i & tg & ? & ?)].
      * by left.
      * right. exists s, j, tg. auto.
      * right. exists s', i, tg. tauto.
    + intros [?|(s' & i & tg & [-> | ?] & ? & ? & ?)].
      * by left; left.
      * left; right. by exists i, tg.
      * right. by exists s', i, tg.
Qed.

(** ** Statistics *)

Lemma sum_token_counts_from (processed : list ProcessedSentence) a :
  foldl (λ acc s, acc + tokenCount s) a processed
  = a + sum_list (tokenCount <$> processed).
Proof.
  revert a. induction processed as [|s processed IH]; intros a; cbn.
  - lia.
  - rewrite IH. lia.
Qed.

Lemma sum_token_counts_sum (processed : list ProcessedSentence) :
  sum_token_counts processed = sum_list (tokenCount <$> processed).
Proof. unfold sum_token_counts. by rewrite sum_token_counts_from. Qed.

Lemma make_stats_run (processed : list ProcessedSentence)
    (key_terms : gset string) :
  make_stats processed key_terms
  = Return {|
      totalTokens := sum_token_counts processed;
      avgTokensPerSentence :=
        match processed with
        | [] => 0%Q
        | _ :: _ => (inject_Z (Z.of_nat (sum_token_counts processed))
                     / inject_Z (Z.of_nat (length processed)))%Q
        end;
      keyTermCount := size key_terms |}.
Proof. by destruct processed. Qed.

(** ** The handler *)

Lemma handle_run request_id data :
  handle request_id data
  = match validate_input data with
    | Raise e => Py [] (Raise e)
    | Return text =>
        match get data "removeStopwords" (JBool true) with
        | Raise e => Py [] (Raise e)
        | Return remove_stopwords =>
            match split_into_sents kiwi_instance text with
            | Raise msg => Py [SplitIntoSents text] (Raise (LibraryError msg))
            | Return spans =>
                let processed :=
                  survivors remove_stopwords 0 (texts_of spans) in
                Py (SplitIntoSents text :: (Analyze <$> texts_of spans))
                   (key_terms ← key_term_loop processed ∅;
                    stats ← make_stats processed key_terms;
                    mret (Success {|
                      requestId := request_id;
                      sentences := texts_of spans;
                      processedSentences := processed;
                      keyTerms := elements key_terms;
                      sentenceCount := length (texts_of spans);
                      stats := stats |}))
            end
        end
    end.
Proof.
  unfold handle, pure, call, mbind at 1 2 3, py_bind.
  destruct (validate_input data) as [text|e]; cbn; [|done].
  destruct (get data "removeStopwords" (JBool true)) as [rs|e]; cbn; [|done].
  destruct (split_into_sents kiwi_instance text) as [spans|msg]; cbn; [|done].
  unfold mbind at 1, py_bind. rewrite sentence_loop_run. cbn.
  unfold mbind at 1, py_bind. cbn.
  destruct (key_term_loop _ _) as [K|e]; cbn; [|by rewrite app_nil_r].
  unfold mbind at 1, py_bind. cbn.
  rewrite make_stats_run. cbn. by rewrite !app_nil_r.
Qed.

(** The response to an accepted request. *)
Lemma accepted_run request_id data text remove_stopwords spans :
  accepted data text remove_stopwords spans →
  let processed := survivors remove_stopwords 0 (texts_of spans) in
  ∃ key_terms : gset string,
    key_term_loop processed ∅ = Return key_terms
    ∧ preprocess_for_textrank request_id data
      = (SplitIntoSents text :: (Analyze <$> texts_of spans),
         Success {|
           requestId := request_id;
           sentences := texts_of spans;
           processedSentences := processed;
           keyTerms := elements key_terms;
           sentenceCount := length (texts_of spans);
           stats := {|
             totalTokens := sum_token_counts processed;
             avgTokensPerSentence :=
               match processed with
               | [] => 0%Q
               | _ :: _ =>
                   (inject_Z (Z.of_nat (sum_token_counts processed))
                    / inject_Z (Z.of_nat (length processed)))%Q
               end;
             keyTermCount := size key_terms |} |}).
Proof.
  intros (Hv & Hg & Hs) processed.
  destruct (key_term_loop_run processed ∅) as (K & HK & _).
  { apply survivors_aligned. }
  exists K. split; [done|].
  unfold preprocess_for_textrank. rewrite handle_run, Hv, Hg, Hs. cbn.
  fold processed. rewrite HK. cbn. by rewrite make_stats_run.
Qed.

(** A success response comes from an accepted request only. *)
Lemma success_accepted request_id data body :
  (preprocess_for_textrank request_id data).2 = Success body →
  ∃ text remove_stopwords spans, accepted data text remove_stopwords spans.
Proof.
  unfold preprocess_for_textrank, accepted. rewrite handle_run. cbn.
  destruct (validate_input data) as [text|[]] eqn:Hv; cbn; try done.
  destruct (get data "removeStopwords" (JBool true)) as [rs|[]] eqn:Hg;
    cbn; try done.
  destruct (split_into_sents kiwi_instance text) as [spans|msg] eqn:Hs;
    cbn; try done.
  intros _. by exists text, rs, spans.
Qed.

(** What the validator and the option lookup can raise. *)
Lemma validate_input_raises data e :
  validate_input data = Raise e →
  (∃ msg, e = TextRankPreprocessingError msg) ∨ (∃ msg, e = AttributeError msg).
Proof.
  unfold validate_input.
  destruct (truthy data); cbn; [|intros [= <-]; eauto].
  destruct (get data "text" JNull) as [text|e'] eqn:Hg; cbn.
  - destruct (truthy text); cbn; [|intros [= <-]; eauto].
    destruct text; try (intros [= <-]; eauto).
    destruct (_ =? _)%nat; [intros [= <-]; eauto | done].
  - intros [= <-]. destruct data; cbn in Hg; try done;
      injection Hg as <-; eauto.
Qed.

Lemma get_raises data key dflt e :
  get data key dflt = Raise e → ∃ msg, e = AttributeError msg.
Proof. destruct data; cbn; try done; intros [= <-]; eauto. Qed.

(** The body of a success response, spelled out. *)
Lemma success_body request_id data body :
  (preprocess_for_textrank request_id data).2 = Success body →
  ∃ text remove_stopwords spans (key_terms : gset string),
    accepted data text remove_stopwords spans
    ∧ key_term_loop (survivors remove_stopwords 0 (texts_of spans)) ∅
      = Return key_terms
    ∧ sentences body = texts_of spans
    ∧ processedSentences body
      = survivors remove_stopwords 0 (texts_of spans)
    ∧ keyTerms body = elements key_terms
    ∧ sentenceCount body = length (texts_of spans)
    ∧ make_stats (processedSentences body) key_terms = Return (stats body).
Proof.
  intros Hbody.
  destruct (success_accepted _ _ _ Hbody) as (text & rs & spans & Hacc).
  destruct (accepted_run request_id _ _ _ _ Hacc) as (K & HK & Hrun).
  rewrite Hrun in Hbody. cbn in Hbody. injection Hbody as <-.
  exists text, rs, spans, K. cbn. by rewrite make_stats_run.
Qed.

Lemma parallel_lengths request_id data body s :
  (preprocess_for_textrank request_id data).2 = Success body →
  s ∈ processedSentences body →
  length (tokens s) = tokenCount s
  ∧ length (normalized s) = tokenCount s
  ∧ length (posTags s) = tokenCount s.
Proof.
  intros (text & rs & spans & K & _ & _ & _ & Hp & _)%success_body Hs.
  rewrite Hp in Hs.
  pose proof (survivors_aligned rs 0 (texts_of spans)) as Hal.
  rewrite Forall_forall in Hal. apply (Hal s Hs).
Qed.

(** ** The properties of the pipeline *)

(** C1. Per-sentence fault isolation: once the request passed validation
    and was segmented, the response is a success response, whatever
    happens inside single sentences; the analyzer is called on every
    sentence in order; a sentence whose processing raises has no record,
    a sentence whose processing returns has its record, carrying the
    position of the sentence in [sentences] as [index]; the [index]
    values are exactly the positions of the sentences that did not
    raise, in increasing order. *)
Theorem sentence_fault_isolation request_id data text remove_stopwords spans :
  validate_input data = Return text →
  get data "removeStopwords" (JBool true) = Return remove_stopwords →
  split_into_sents kiwi_instance text = Return spans →
  ∃ body,
    preprocess_for_textrank request_id data
    = (SplitIntoSents text :: (Analyze <$> sentences body), Success body)
    ∧ sentences body = texts_of spans
    ∧ (∀ i sent_text, sentences body !! i = Some sent_text →
         match outcome (process_sentence remove_stopwords i sent_text) with
         | Raise _ => ∀ s, s ∈ processedSentences body → index s ≠ i
         | Return s =>
             s ∈ processedSentences body
             ∧ index s = i ∧ sentence s = sent_text
         end)
    ∧ index <$> processedSentences body
      = filter (λ i, survives remove_stopwords (sentences body) i)
          (seq 0 (length (sentences body))).
Proof.
  intros Hv Hg Hs.
  destruct (accepted_run request_id data text remove_stopwords spans)
    as (K & _ & Hrun); [done|].
  match type of Hrun with _ = (_, Success ?b) => exists b end.
  split; [exact Hrun|]. cbn. split; [done|]. split.
  - intros i sent_text Hi.
    destruct (outcome (process_sentence remove_stopwords i sent_text))
      as [s|e] eqn:Hp.
    + split; [|by apply process_sentence_aligned in Hp as (_ & ? & ?)].
      apply elem_of_survivors. by exists i, sent_text.
    + intros s (j & t & Hj & Ht)%elem_of_survivors <-.
      cbn in Ht. apply process_sentence_aligned in Ht as Hidx.
      destruct Hidx as (_ & Hidx & _). rewrite Hidx in Hi.
      congruence.
  - apply survivors_index.
Qed.

(** C2. Parallel sequences: in every record of a success response,
    whatever [removeStopwords] was, [tokens], [normalized] and [posTags]
    have the same length, which is [tokenCount]. *)
Theorem parallel_sequences request_id data body s :
  (preprocess_for_textrank request_id data).2 = Success body →
  s ∈ processedSentences body →
  length (tokens s) = length (normalized s)
  ∧ length (normalized s) = length (posTags s)
  ∧ length (posTags s) = tokenCount s.
Proof.
  intros Hbody Hs.
  destruct (parallel_lengths _ _ _ _ Hbody Hs) as (? & ? & ?). lia.
Qed.

(** What a record of a success response was built from: the morphemes of
    the first candidate the analyzer returned for its sentence. *)
Lemma record_origin request_id data body remove_stopwords s :
  (preprocess_for_textrank request_id data).2 = Success body →
  get data "removeStopwords" (JBool true) = Return remove_stopwords →
  s ∈ processedSentences body →
  ∃ analysis score lower_ranked,
    analyze kiwi_instance (sentence s)
    = Return ((analysis, score) :: lower_ranked)
    ∧ let chosen := if truthy remove_stopwords then filter kept analysis
                    else analysis in
      tokens s = form <$> chosen
      ∧ normalized s = norm <$> chosen
      ∧ posTags s = tag <$> chosen.
Proof.
  intros (text & rs & spans & K & (_ & Hg' & _) & _ & _ & Hp & _)%success_body
    Hg Hs.
  assert (rs = remove_stopwords) as -> by congruence.
  rewrite Hp in Hs. apply elem_of_survivors in Hs as (i & t & _ & Ht).
  apply process_sentence_aligned in Ht as Hst. destruct Hst as (_ & _ & ->).
  rewrite process_sentence_run in Ht. cbn in Ht.
  destruct (analyze kiwi_instance t) as [[|[analysis score] rest]|msg];
    try done.
  injection Ht as <-. by exists analysis, score, rest.
Qed.

(** C3. Stopword filtering: when the [removeStopwords] option is true (or
    any value Python takes as true), each record holds the morphemes of
    the first candidate whose normalized form is not a stopword, the same
    selection in the same order in [tokens], [normalized] and [posTags];
    no element of [normalized] is a stopword. *)
Theorem stopword_filtering request_id data body remove_stopwords s :
  (preprocess_for_textrank request_id data).2 = Success body →
  get data "removeStopwords" (JBool true) = Return remove_stopwords →
  truthy remove_stopwords = true →
  s ∈ processedSentences body →
  ∃ analysis score lower_ranked,
    analyze kiwi_instance (sentence s)
    = Return ((analysis, score) :: lower_ranked)
    ∧ let selected :=
        filter (λ m, lower (form m) ∉ KOREAN_STOPWORDS) analysis in
      tokens s = form <$> selected
      ∧ normalized s = (λ m, lower (form m)) <$> selected
      ∧ posTags s = tag <$> selected
      ∧ Forall (λ n, n ∉ KOREAN_STOPWORDS) (normalized s).
Proof.
  intros Hbody Hg Hrs Hs.
  destruct (record_origin _ _ _ _ _ Hbody Hg Hs)
    as (analysis & score & rest & Han & Hcols).
  rewrite Hrs in Hcols. cbn in Hcols. destruct Hcols as (Ht & Hn & Hp).
  exists analysis, score, rest. split; [done|]. cbn.
  repeat split; try done.
  rewrite Hn. apply Forall_fmap, Forall_forall.
  by intros m [Hm _]%list_elem_of_filter.
Qed.

(** C4. Without filtering: when the [removeStopwords] option is false (or
    any value Python takes as false), each record holds all the morphemes
    of the first candidate the analyzer returned, in order: their forms
    in [tokens], the lower-cased forms in [normalized], their tags in
    [posTags]; the other candidates are not used. *)
Theorem unfiltered_rank0 request_id data body remove_stopwords s :
  (preprocess_for_textrank request_id data).2 = Success body →
  get data "removeStopwords" (JBool true) = Return remove_stopwords →
  truthy remove_stopwords = false →
  s ∈ processedSentences body →
  ∃ analysis score lower_ranked,
    analyze kiwi_instance (sentence s)
    = Return ((analysis, score) :: lower_ranked)
    ∧ tokens s = form <$> analysis
    ∧ normalized s = (λ m, lower (form m)) <$> analysis
    ∧ posTags s = tag <$> analysis
    ∧ tokenCount s = length analysis.
Proof.
  intros Hbody Hg Hrs Hs.
  destruct (record_origin _ _ _ _ _ Hbody Hg Hs)
    as (analysis & score & rest & Han & Hcols).
  rewrite Hrs in Hcols. cbn in Hcols. destruct Hcols as (Ht & Hn & Hp).
  exists analysis, score, rest. repeat split; try done.
  destruct (parallel_lengths _ _ _ _ Hbody Hs) as (_ & _ & <-).
  by rewrite Hp, length_fmap.
Qed.

(** C5. Key terms: a normalized form is in [keyTerms] exactly when some
    record has it at a position whose tag starts with [N] or with [V];
    the test against [VA] adds nothing; [keyTerms] has no duplicates. *)
Theorem key_term_membership request_id data body :
  (preprocess_for_textrank request_id data).2 = Success body →
  (∀ t, t ∈ keyTerms body
     ↔ ∃ s i tg, s ∈ processedSentences body
                 ∧ normalized s !! i = Some t
                 ∧ posTags s !! i = Some tg
                 ∧ (startswith tg "N" = true ∨ startswith tg "V" = true))
  ∧ (∀ tg, is_key_tag tg = startswith tg "N" || startswith tg "V")
  ∧ NoDup (keyTerms body).
Proof.
  intros (text & rs & spans & K & _ & HK & _ & Hp & Hk & _)%success_body.
  rewrite Hk, Hp. split; [|split].
  - intros t. rewrite elem_of_elements.
    destruct (key_term_loop_run (survivors rs 0 (texts_of spans)) ∅)
      as (K' & HK' & Hin); [apply survivors_aligned|].
    assert (K' = K) as -> by congruence.
    rewrite Hin. split.
    + intros [?%not_elem_of_empty|(s & i & tg & ? & ? & ?%is_key_tag_prefix & ?)];
        [done|].
      by exists s, i, tg.
    + intros (s & i & tg & ? & ? & ? & ?%is_key_tag_prefix).
      right. by exists s, i, tg.
  - intros tg. apply eq_true_iff_eq.
    rewrite is_key_tag_prefix, orb_true_iff. done.
  - apply NoDup_elements.
Qed.

(** C6. Statistics: the handler never ends in a division by zero; in a
    success response [totalTokens] is the sum of the [tokenCount] fields,
    [avgTokensPerSentence] is 0 when there is no record and
    [totalTokens / len(processedSentences)] otherwise, and [keyTermCount]
    is the number of key terms. *)
Theorem stats_division_guard request_id data :
  (∀ msg, outcome (handle request_id data) ≠ Raise (ZeroDivisionError msg))
  ∧ ∀ body,
      (preprocess_for_textrank request_id data).2 = Success body →
      totalTokens (stats body)
      = sum_list (tokenCount <$> processedSentences body)
      ∧ (processedSentences body = [] →
           avgTokensPerSentence (stats body) = 0%Q)
      ∧ (processedSentences body ≠ [] →
           avgTokensPerSentence (stats body)
           = (inject_Z (Z.of_nat (totalTokens (stats body)))
              / inject_Z (Z.of_nat (length (processedSentences body))))%Q)
      ∧ keyTermCount (stats body) = length (keyTerms body).
Proof.
  split.
  - intros msg. rewrite handle_run.
    destruct (validate_input data) as [text|e] eqn:Hv; cbn.
    2: { intros [= ->]. by apply validate_input_raises in Hv as [[]|[]]. }
    destruct (get data "removeStopwords" (JBool true)) as [rs|e] eqn:Hg; cbn.
    2: { intros [= ->]. by apply get_raises in Hg as []. }
    destruct (split_into_sents kiwi_instance text) as [spans|m]; cbn; [|done].
    destruct (key_term_loop_run (survivors rs 0 (texts_of spans)) ∅)
      as (K & -> & _); [apply survivors_aligned|].
    cbn. by rewrite make_stats_run.
  - intros body
      (text & rs & spans & K & _ & _ & _ & _ & Hk & _ & Hst)%success_body.
    rewrite make_stats_run in Hst. injection Hst as <-. cbn.
    rewrite Hk, sum_token_counts_sum. repeat split; try done.
    + by intros ->.
    + by destruct (processedSentences body).
Qed.

(** C7. Validation: an empty or absent payload is refused as empty; a
    mapping without [text], or with a [text] that Python takes as false,
    as missing text; a mapping whose [text] is not a string as such; a
    mapping whose [text] strips to nothing as blank; in this order.  A
    refusal by the validator is answered with status 400, the reason and
    the request id, and no call is made on the analyzer. *)
Theorem validation_taxonomy request_id data :
  (truthy data = false →
     validate_input data
     = Raise (TextRankPreprocessingError "요청 데이터가 비어있습니다"))
  ∧ (∀ m, data = JObj m → truthy data = true →
       ((m !! "text" = None ∨ ∃ v, m !! "text" = Some v ∧ truthy v = false) →
          validate_input data
          = Raise (TextRankPreprocessingError "텍스트가 제공되지 않았습니다"))
       ∧ (∀ v, m !! "text" = Some v → truthy v = true →
            (∀ text, v ≠ JStr text) →
            validate_input data
            = Raise (TextRankPreprocessingError "텍스트는 문자열이어야 합니다"))
       ∧ (∀ text, m !! "text" = Some (JStr text) → text ≠ ""%string →
            validate_input data
            = if (String.length (strip text) =? 0)%nat
              then Raise (TextRankPreprocessingError "텍스트가 비어있습니다")
              else Return text))
  ∧ (∀ msg,
       validate_input data = Raise (TextRankPreprocessingError msg) →
       preprocess_for_textrank request_id data
       = ([], Failure 400 ("TextRank 전처리 검증 오류: " +:+ msg) request_id)).
Proof.
  split; [|split].
  - intros Hd. unfold validate_input. by rewrite Hd.
  - intros m -> Hd. unfold validate_input. rewrite Hd. cbn.
    split; [|split].
    + intros [->|(v & -> & Hv)]; cbn; [done|]. by rewrite Hv.
    + intros v -> Hv Hns. cbn. rewrite Hv. cbn.
      destruct v; try done. by destruct (Hns s).
    + intros text -> Ht%String.eqb_neq. cbn. by rewrite Ht.
  - intros msg Hv. unfold preprocess_for_textrank.
    by rewrite handle_run, Hv.
Qed.

(** C8. Counts: in a success response [sentences] holds the texts of the
    segmenter's spans in their order, [sentenceCount] is its length,
    there are at most [sentenceCount] records, and fewer exactly when the
    processing of some sentence raised. *)
Theorem count_invariants request_id data body :
  (preprocess_for_textrank request_id data).2 = Success body →
  ∃ text remove_stopwords spans,
    validate_input data = Return text
    ∧ get data "removeStopwords" (JBool true) = Return remove_stopwords
    ∧ split_into_sents kiwi_instance text = Return spans
    ∧ sentences body = texts_of spans
    ∧ sentenceCount body = length (sentences body)
    ∧ length (processedSentences body) ≤ sentenceCount body
    ∧ (length (processedSentences body) < sentenceCount body
       ↔ ∃ i sent_text e,
           sentences body !! i = Some sent_text
           ∧ outcome (process_sentence remove_stopwords i sent_text)
             = Raise e).
Proof.
  intros (text & rs & spans & K & (Hv & Hg & Hs) & _ & Hse & Hp & _ & Hc & _)
    %success_body.
  exists text, rs, spans. rewrite Hc, Hse, Hp.
  repeat split; try done.
  - apply survivors_length.
  - by intros ?%survivors_length_lt.
  - intros ?. by apply survivors_length_lt.
Qed.

(** C9. Determinism up to the request id: two runs on the same payload
    make the same calls on the analyzer and answer alike; two success
    responses have the same [sentences], [processedSentences], [stats]
    and the same key terms, two failure responses the same status and
    message; each response carries the request id of its own run. *)
Theorem determinism_up_to_request_id request_id1 request_id2 data :
  (preprocess_for_textrank request_id1 data).1
  = (preprocess_for_textrank request_id2 data).1
  ∧ match (preprocess_for_textrank request_id1 data).2,
          (preprocess_for_textrank request_id2 data).2 with
    | Success body1, Success body2 =>
        sentences body1 = sentences body2
        ∧ processedSentences body1 = processedSentences body2
        ∧ (∀ t, t ∈ keyTerms body1 ↔ t ∈ keyTerms body2)
        ∧ sentenceCount body1 = sentenceCount body2
        ∧ stats body1 = stats body2
        ∧ requestId body1 = request_id1
        ∧ requestId body2 = request_id2
    | Failure status1 error1 id1, Failure status2 error2 id2 =>
        status1 = status2 ∧ error1 = error2
        ∧ id1 = request_id1 ∧ id2 = request_id2
    | _, _ => False
    end.
Proof.
  unfold preprocess_for_textrank. rewrite !handle_run. cbn.
  destruct (validate_input data) as [text|[]]; cbn; try done.
  destruct (get data "removeStopwords" (JBool true)) as [rs|[]];
    cbn; try done.
  destruct (split_into_sents kiwi_instance text) as [spans|msg];
    cbn; try done.
  destruct (key_term_loop _ _) as [K|[]]; cbn; try done.
  by rewrite make_stats_run.
Qed.

(** C10. A payload that Python takes as true and that is not a mapping
    is not refused by the validator: the lookup of [get] on it raises an
    [AttributeError], and the handler answers with status 500 and the
    request id, without calling the analyzer. *)
Theorem non_mapping_payload request_id data :
  truthy data = true →
  (∀ m, data ≠ JObj m) →
  validate_input data
  = Raise (AttributeError
      ("'" +:+ type_name data +:+ "' object has no attribute 'get'"))
  ∧ preprocess_for_textrank request_id data
    = ([], Failure 500
             ("TextRank 전처리 중 오류 발생: "
              +:+ "'" +:+ type_name data +:+ "' object has no attribute 'get'")
             request_id).
Proof.
  intros Hd Hnm.
  assert (Hv : validate_input data
               = Raise (AttributeError
                   ("'" +:+ type_name data
                    +:+ "' object has no attribute 'get'"))).
  { unfold validate_input. rewrite Hd. cbn.
    destruct data; try done. by destruct (Hnm m). }
  split; [done|].
  unfold preprocess_for_textrank. by rewrite handle_run, Hv.
Qed.

End Properties.

(** ** The properties on a concrete request *)

Lemma sentence_fault_isolation_witness :
  validate_input (runtime := Demo.runtime) (Demo.request Demo.five true)
  = Return Demo.five
  ∧ get (Demo.request Demo.five true) "removeStopwords" (JBool true)
    = Return (JBool true)
  ∧ split_into_sents Demo.kiwi Demo.five = Return Demo.five_spans
  ∧ ∃ body,
      Demo.run "r1" (Demo.request Demo.five true)
      = (SplitIntoSents Demo.five :: (Analyze <$> sentences body),
         Success body)
      ∧ length (sentences body) = 5
      ∧ index <$> processedSentences body = [0; 1; 3; 4].
Proof.
  assert (Hv : validate_input (runtime := Demo.runtime)
                 (Demo.request Demo.five true) = Return Demo.five)
    by (vm_compute; reflexivity).
  assert (Hg : get (Demo.request Demo.five true) "removeStopwords"
                 (JBool true) = Return (JBool true))
    by (vm_compute; reflexivity).
  assert (Hs : split_into_sents Demo.kiwi Demo.five = Return Demo.five_spans)
    by (vm_compute; reflexivity).
  repeat (split; [assumption|]).
  destruct (sentence_fault_isolation (runtime := Demo.runtime) "r1"
              _ _ _ _ Hv Hg Hs) as (body & Hrun & Hse & _ & Hidx).
  exists body. split; [exact Hrun|].
  rewrite Hidx, Hse. split; vm_compute; reflexivity.
Defined.

Lemma parallel_sequences_witness :
  (Demo.run "r1" (Demo.request Demo.five true)).2 = Success Demo.filtered
  ∧ Demo.filtered_fourth ∈ processedSentences Demo.filtered
  ∧ length (tokens Demo.filtered_fourth)
    = length (normalized Demo.filtered_fourth)
  ∧ length (normalized Demo.filtered_fourth)
    = length (posTags Demo.filtered_fourth)
  ∧ length (posTags Demo.filtered_fourth) = tokenCount Demo.filtered_fourth.
Proof.
  assert (Hb : (Demo.run "r1" (Demo.request Demo.five true)).2
               = Success Demo.filtered) by (vm_compute; reflexivity).
  assert (Hs : Demo.filtered_fourth ∈ processedSentences Demo.filtered)
    by (apply (list_elem_of_lookup_2 _ 2); vm_compute; reflexivity).
  split; [exact Hb|]. split; [exact Hs|].
  exact (parallel_sequences (runtime := Demo.runtime) "r1" _ _ _ Hb Hs).
Defined.

Lemma stopword_filtering_witness :
  (Demo.run "r1" (Demo.request Demo.five true)).2 = Success Demo.filtered
  ∧ get (Demo.request Demo.five true) "removeStopwords" (JBool true)
    = Return (JBool true)
  ∧ Demo.filtered_fourth ∈ processedSentences Demo.filtered
  ∧ tokens Demo.filtered_fourth = ["고양이"%string]
  ∧ Forall (λ n, n ∉ KOREAN_STOPWORDS) (normalized Demo.filtered_fourth).
Proof.
  assert (Hb : (Demo.run "r1" (Demo.request Demo.five true)).2
               = Success Demo.filtered) by (vm_compute; reflexivity).
  assert (Hg : get (Demo.request Demo.five true) "removeStopwords"
                 (JBool true) = Return (JBool true))
    by (vm_compute; reflexivity).
  assert (Hs : Demo.filtered_fourth ∈ processedSentences Demo.filtered)
    by (apply (list_elem_of_lookup_2 _ 2); vm_compute; reflexivity).
  repeat (split; [assumption|]). split; [reflexivity|].
  destruct (stopword_filtering (runtime := Demo.runtime) "r1" _ _ _ _
              Hb Hg eq_refl Hs) as (_ & _ & _ & _ & _ & _ & _ & Hno).
  exact Hno.
Defined.

Lemma unfiltered_rank0_witness :
  (Demo.run "r2" (Demo.request Demo.five false)).2 = Success Demo.unfiltered
  ∧ get (Demo.request Demo.five false) "removeStopwords" (JBool true)
    = Return (JBool false)
  ∧ Demo.unfiltered_fourth ∈ processedSentences Demo.unfiltered
  ∧ ∃ analysis score lower_ranked,
      analyze Demo.kiwi (sentence Demo.unfiltered_fourth)
      = Return ((analysis, score) :: lower_ranked)
      ∧ tokens Demo.unfiltered_fourth = form <$> analysis
      ∧ normalized Demo.unfiltered_fourth
        = (λ m, Demo.ascii_lower (form m)) <$> analysis
      ∧ posTags Demo.unfiltered_fourth = tag <$> analysis
      ∧ tokenCount Demo.unfiltered_fourth = length analysis.
Proof.
  assert (Hb : (Demo.run "r2" (Demo.request Demo.five false)).2
               = Success Demo.unfiltered) by (vm_compute; reflexivity).
  assert (Hg : get (Demo.request Demo.five false) "removeStopwords"
                 (JBool true) = Return (JBool false))
    by (vm_compute; reflexivity).
  assert (Hs : Demo.unfiltered_fourth ∈ processedSentences Demo.unfiltered)
    by (apply (list_elem_of_lookup_2 _ 2); vm_compute; reflexivity).
  repeat (split; [assumption|]).
  exact (unfiltered_rank0 (runtime := Demo.runtime) "r2" _ _ _ _
           Hb Hg eq_refl Hs).
Defined.

Lemma key_term_membership_witness :
  (Demo.run "r1" (Demo.request Demo.five true)).2 = Success Demo.filtered
  ∧ NoDup (keyTerms Demo.filtered)
  ∧ ("고양이"%string ∈ keyTerms Demo.filtered
     ↔ ∃ s i tg, s ∈ processedSentences Demo.filtered
                 ∧ normalized s !! i = Some "고양이"%string
                 ∧ posTags s !! i = Some tg
                 ∧ (startswith tg "N" = true ∨ startswith tg "V" = true)).
Proof.
  assert (Hb : (Demo.run "r1" (Demo.request Demo.five true)).2
               = Success Demo.filtered) by (vm_compute; reflexivity).
  split; [exact Hb|].
  destruct (key_term_membership (runtime := Demo.runtime) "r1" _ _ Hb)
    as (Hin & _ & Hnd).
  split; [exact Hnd | exact (Hin _)].
Defined.

Lemma stats_division_guard_witness :
  (Demo.run "r1" (Demo.request Demo.five true)).2 = Success Demo.filtered
  ∧ totalTokens (stats Demo.filtered) = 16
  ∧ length (processedSentences Demo.filtered) = 4
  ∧ avgTokensPerSentence (stats Demo.filtered)
    = (inject_Z 16 / inject_Z 4)%Q
  ∧ keyTermCount (stats Demo.filtered) = length (keyTerms Demo.filtered).
Proof.
  assert (Hb : (Demo.run "r1" (Demo.request Demo.five true)).2
               = Success Demo.filtered) by (vm_compute; reflexivity).
  split; [exact Hb|].
  destruct (stats_division_guard (runtime := Demo.runtime) "r1"
              (Demo.request Demo.five true)) as [_ Hst].
  destruct (Hst _ Hb) as (_ & _ & Havg & Hk).
  split; [reflexivity|]. split; [reflexivity|]. split; [|exact Hk].
  rewrite Havg by (vm_compute; discriminate). reflexivity.
Defined.

Lemma validation_taxonomy_witness :
  Demo.run "r1" (JObj ∅)
  = ([], Failure 400 "TextRank 전처리 검증 오류: 요청 데이터가 비어있습니다" "r1")
  ∧ Demo.run "r1" Demo.no_text
    = ([], Failure 400 "TextRank 전처리 검증 오류: 텍스트가 제공되지 않았습니다" "r1")
  ∧ Demo.run "r1" Demo.number_text
    = ([], Failure 400 "TextRank 전처리 검증 오류: 텍스트는 문자열이어야 합니다" "r1")
  ∧ Demo.run "r1" (Demo.request "   " true)
    = ([], Failure 400 "TextRank 전처리 검증 오류: 텍스트가 비어있습니다" "r1").
Proof.
  destruct (validation_taxonomy (runtime := Demo.runtime) "r1" (JObj ∅))
    as (Hempty & _ & Hresp1).
  destruct (validation_taxonomy (runtime := Demo.runtime) "r1" Demo.no_text)
    as (_ & Hmap2 & Hresp2).
  destruct (Hmap2 _ eq_refl eq_refl) as (Hmissing & _ & _).
  destruct (validation_taxonomy (runtime := Demo.runtime) "r1"
              Demo.number_text) as (_ & Hmap3 & Hresp3).
  destruct (Hmap3 _ eq_refl eq_refl) as (_ & Hnostr & _).
  destruct (validation_taxonomy (runtime := Demo.runtime) "r1"
              (Demo.request "   " true)) as (_ & Hmap4 & Hresp4).
  destruct (Hmap4 _ eq_refl eq_refl) as (_ & _ & Hblank).
  split; [|split; [|split]].
  - apply Hresp1, Hempty. reflexivity.
  - apply Hresp2, Hmissing. left. vm_compute. reflexivity.
  - apply Hresp3, (Hnostr (JInt 5)).
    + vm_compute. reflexivity.
    + reflexivity.
    + intros text. discriminate.
  - apply Hresp4. rewrite (Hblank "   "%string).
    + reflexivity.
    + vm_compute. reflexivity.
    + discriminate.
Defined.

Lemma count_invariants_witness :
  (Demo.run "r1" (Demo.request Demo.five true)).2 = Success Demo.filtered
  ∧ sentenceCount Demo.filtered = 5
  ∧ length (processedSentences Demo.filtered) = 4
  ∧ ∃ text remove_stopwords spans,
      validate_input (runtime := Demo.runtime) (Demo.request Demo.five true)
      = Return text
      ∧ get (Demo.request Demo.five true) "removeStopwords" (JBool true)
        = Return remove_stopwords
      ∧ split_into_sents Demo.kiwi text = Return spans
      ∧ sentences Demo.filtered = texts_of spans
      ∧ sentenceCount Demo.filtered = length (sentences Demo.filtered)
      ∧ length (processedSentences Demo.filtered)
        ≤ sentenceCount Demo.filtered
      ∧ (length (processedSentences Demo.filtered)
         < sentenceCount Demo.filtered
         ↔ ∃ i sent_text e,
             sentences Demo.filtered !! i = Some sent_text
             ∧ outcome (process_sentence (runtime := Demo.runtime)
                          remove_stopwords i sent_text) = Raise e).
Proof.
  assert (Hb : (Demo.run "r1" (Demo.request Demo.five true)).2
               = Success Demo.filtered) by (vm_compute; reflexivity).
  split; [exact Hb|]. split; [reflexivity|]. split; [reflexivity|].
  exact (count_invariants (runtime := Demo.runtime) "r1" _ _ Hb).
Defined.

Lemma non_mapping_payload_witness :
  truthy (JArr [JInt 1]) = true
  ∧ (∀ m, JArr [JInt 1] ≠ JObj m)
  ∧ Demo.run "r1" (JArr [JInt 1])
    = ([], Failure 500
             "TextRank 전처리 중 오류 발생: 'list' object has no attribute 'get'"
             "r1").
Proof.
  assert (Hnm : ∀ m, JArr [JInt 1] ≠ JObj m) by (intros m; discriminate).
  split; [reflexivity|]. split; [exact Hnm|].
  destruct (non_mapping_payload (runtime := Demo.runtime) "r1"
              (JArr [JInt 1]) eq_refl Hnm) as [_ Hrun].
  exact Hrun.
Defined.

(** ** Further properties of the endpoint *)

Section More.

Context {runtime : Runtime}.

(** The validator on a mapping looks at the [text] entry only. *)
Lemma validate_input_mapping (m : gmap string json) :
  m ≠ ∅ →
  validate_input (JObj m)
  = match m !! "text" with
    | Some (JStr text) =>
        if String.eqb text "" then
          Raise (TextRankPreprocessingError "텍스트가 제공되지 않았습니다")
        else if (String.length (strip text) =? 0)%nat then
          Raise (TextRankPreprocessingError "텍스트가 비어있습니다")
        else Return text
    | Some v =>
        if truthy v then
          Raise (TextRankPreprocessingError "텍스트는 문자열이어야 합니다")
        else Raise (TextRankPreprocessingError "텍스트가 제공되지 않았습니다")
    | None => Raise (TextRankPreprocessingError "텍스트가 제공되지 않았습니다")
    end.
Proof.
  intros Hm. unfold validate_input. cbn.
  rewrite bool_decide_eq_false_2 by done. cbn.
  destruct (m !! "text") as [v|]; cbn; [|done].
  destruct v; cbn; try done.
  - by destruct b.
  - by destruct (z =? 0)%Z.
  - by destruct (Qeq_bool q 0).
  - by destruct (String.eqb s "").
  - by destruct l.
  - by destruct (bool_decide (m0 = ∅)).
Qed.

Lemma validate_input_is_mapping data text :
  validate_input data = Return text → ∃ m, data = JObj m.
Proof.
  unfold validate_input.
  destruct (truthy data); cbn; [|done].
  destruct data; cbn; try done. eauto.
Qed.

Lemma validate_input_text (m : gmap string json) text :
  validate_input (JObj m) = Return text → m !! "text" = Some (JStr text).
Proof.
  intros Hv.
  assert (Hm : m ≠ ∅).
  { intros ->. unfold validate_input in Hv. cbn in Hv.
    by rewrite bool_decide_eq_true_2 in Hv. }
  rewrite (validate_input_mapping m Hm) in Hv.
  destruct (m !! "text") as [[| | | |s| |]|]; try done;
    try (by destruct (truthy _)).
  destruct (String.eqb s ""); [done|].
  destruct (String.length (strip s) =? 0)%nat; [done|]. congruence.
Qed.

(** X1. The validator returns exactly when the payload is a mapping whose
    [text] is a non-empty string that does not strip to nothing, and it
    returns that string as it stands in the payload, not its stripped
    form. *)
Theorem validate_input_returns data text :
  validate_input data = Return text
  ↔ ∃ m, data = JObj m
         ∧ m !! "text" = Some (JStr text)
         ∧ text ≠ ""%string
         ∧ String.length (strip text) ≠ 0.
Proof.
  split.
  - intros Hv.
    destruct (truthy data) eqn:Hd.
    2: { unfold validate_input in Hv. by rewrite Hd in Hv. }
    destruct data as [| | | | | |m];
      try (unfold validate_input in Hv; rewrite Hd in Hv; cbn in Hv; done).
    assert (Hm : m ≠ ∅).
    { intros ->. cbn in Hd. by rewrite bool_decide_eq_true_2 in Hd. }
    rewrite (validate_input_mapping m Hm) in Hv.
    exists m. split; [done|].
    destruct (m !! "text") as [[| | | |s| |]|]; try done;
      try (by destruct (truthy _)).
    destruct (String.eqb s "") eqn:Hs; [done|].
    destruct (String.length (strip s) =? 0)%nat eqn:Hl; [done|].
    injection Hv as ->.
    apply String.eqb_neq in Hs. by apply Nat.eqb_neq in Hl.
  - intros (m & -> & Ht & Hne & Hl).
    rewrite validate_input_mapping, Ht.
    + apply String.eqb_neq in Hne as ->.
      by apply Nat.eqb_neq in Hl as ->.
    + intros ->. by rewrite lookup_empty in Ht.
Qed.

Lemma process_sentence_truth remove_stopwords1 remove_stopwords2 idx sent_text :
  truthy remove_stopwords1 = truthy remove_stopwords2 →
  process_sentence remove_stopwords1 idx sent_text
  = process_sentence remove_stopwords2 idx sent_text.
Proof. intros Ht. by rewrite !process_sentence_run, Ht. Qed.

Lemma survivors_truth remove_stopwords1 remove_stopwords2 idx sentence_texts :
  truthy remove_stopwords1 = truthy remove_stopwords2 →
  survivors remove_stopwords1 idx sentence_texts
  = survivors remove_stopwords2 idx sentence_texts.
Proof.
  intros Ht. revert idx.
  induction sentence_texts as [|sent_text rest IH]; intros idx; cbn; [done|].
  rewrite (process_sentence_truth _ _ _ _ Ht).
  by destruct (outcome _); rewrite IH.
Qed.

(** X2. What the handler reads of a mapping: the [text] entry and the
    truth value of the [removeStopwords] entry, an absent entry counting
    as true.  Two non-empty mappings that agree on these get the same
    calls and the same response, whatever else they hold and whatever
    the type of the option's value. *)
Theorem payload_relevance request_id (m1 m2 : gmap string json) :
  m1 ≠ ∅ → m2 ≠ ∅ →
  m1 !! "text" = m2 !! "text" →
  truthy (default (JBool true) (m1 !! "removeStopwords"))
  = truthy (default (JBool true) (m2 !! "removeStopwords")) →
  preprocess_for_textrank request_id (JObj m1)
  = preprocess_for_textrank request_id (JObj m2).
Proof.
  intros Hm1 Hm2 Ht Hrs.
  assert (Hv : validate_input (JObj m1) = validate_input (JObj m2))
    by (by rewrite !validate_input_mapping, Ht).
  unfold preprocess_for_textrank. rewrite !handle_run, Hv. cbn [get].
  destruct (validate_input (JObj m2)) as [text|e]; [|done].
  destruct (split_into_sents kiwi_instance text) as [spans|msg]; [|done].
  cbn zeta. by rewrite (survivors_truth _ _ _ _ Hrs).
Qed.




(** The outcome of one sentence, read off the analyzer's answer. *)
Lemma process_sentence_returns remove_stopwords idx sent_text s :
  outcome (process_sentence remove_stopwords idx sent_text) = Return s
  ↔ ∃ analysis score lower_ranked,
      analyze kiwi_instance sent_text
      = Return ((analysis, score) :: lower_ranked)
      ∧ s = let chosen := if truthy remove_stopwords
                          then filter kept analysis else analysis in
            {| index := idx; sentence := sent_text;
               tokens := form <$> chosen; normalized := norm <$> chosen;
               posTags := tag <$> chosen; tokenCount := length chosen |}.
Proof.
  rewrite process_sentence_run. cbn.
  destruct (analyze kiwi_instance sent_text) as [[|[analysis score] rest]|msg].
  - split; [done|]. by intros (? & ? & ? & ? & _).
  - split.
    + intros [= <-]. by exists analysis, score, rest.
    + by intros (? & ? & ? & [= <- _ _] & ->).
  - split; [done|]. by intros (? & ? & ? & ? & _).
Qed.

(** X4. No record at all: in a success response [processedSentences] is
    empty exactly when the analyzer gave no candidate for any sentence (it
    raised or returned an empty list), which includes a text without
    sentences; then there is no key term and the statistics are all
    zero. *)
Theorem no_record_iff request_id data body :
  (preprocess_for_textrank request_id data).2 = Success body →
  (processedSentences body = []
   ↔ ∀ sent_text, sent_text ∈ sentences body →
       match analyze kiwi_instance sent_text with
       | Return (_ :: _) => False
       | _ => True
       end)
  ∧ (processedSentences body = [] →
       keyTerms body = []
       ∧ stats body = {| totalTokens := 0; avgTokensPerSentence := 0%Q;
                         keyTermCount := 0 |}).
Proof.
  intros (text & rs & spans & K & _ & HK & Hse & Hp & Hk & _ & Hst)
    %success_body.
  split.
  - rewrite Hp, Hse. split.
    + intros Hnil sent_text [i Hi]%list_elem_of_lookup.
      destruct (analyze kiwi_instance sent_text)
        as [[|[analysis score] rest]|msg] eqn:Han; try done.
      assert (Hin : ∃ s, s ∈ survivors rs 0 (texts_of spans)).
      { eexists. apply elem_of_survivors. exists i, sent_text.
        split; [done|]. apply process_sentence_returns.
        by exists analysis, score, rest. }
      destruct Hin as [s Hs]. rewrite Hnil in Hs. by apply elem_of_nil in Hs.
    + intros Hall.
      destruct (survivors rs 0 (texts_of spans)) as [|s l] eqn:Hsv; [done|].
      assert (Hs : s ∈ survivors rs 0 (texts_of spans))
        by (rewrite Hsv; left).
      apply elem_of_survivors in Hs as (i & sent_text & Hi & Hs).
      apply process_sentence_returns in Hs
        as (analysis & score & rest & Han & _).
      apply list_elem_of_lookup_2, Hall in Hi. by rewrite Han in Hi.
  - intros Hnil. rewrite Hnil in Hst. rewrite <- Hp, Hnil in HK.
    cbn in HK, Hst. injection HK as <-. injection Hst as <-.
    by rewrite Hk, elements_empty.
Qed.

Lemma survivors_dropped_only remove_stopwords1 remove_stopwords2 idx
    sentence_texts :
  truthy remove_stopwords2 = false →
  Forall2 dropped_only (survivors remove_stopwords1 idx sentence_texts)
    (survivors remove_stopwords2 idx sentence_texts).
Proof.
  intros Hoff. revert idx.
  induction sentence_texts as [|sent_text rest IH]; intros idx; cbn;
    [constructor|].
  rewrite !process_sentence_run, Hoff. cbn.
  destruct (analyze kiwi_instance sent_text) as [[|[analysis score] ?]|msg];
    try apply IH.
  constructor; [|apply IH].
  assert (Hsub : (if truthy remove_stopwords1 then filter kept analysis
                  else analysis) `sublist_of` analysis).
  { destruct (truthy remove_stopwords1); [apply sublist_filter|done]. }
  unfold dropped_only. cbn.
  repeat split; try done; try (by apply fmap_sublist).
  by apply sublist_length.
Qed.

Lemma sum_list_dropped_only (l1 l2 : list ProcessedSentence) :
  Forall2 dropped_only l1 l2 →
  sum_list (tokenCount <$> l1) ≤ sum_list (tokenCount <$> l2).
Proof.
  induction 1 as [|s1 s2 l1 l2 (_ & _ & _ & _ & _ & Hle) _ IH]; cbn; lia.
Qed.

(** X5. Filtering only drops morphemes: for the same text, a success
    response and the success response made without stopword removal have
    the same sentences and records for the same sentences, pairwise with
    the same [index] and [sentence]; the sequences of the former are
    subsequences of the unfiltered ones, and so its [totalTokens] is at
    most the unfiltered one. *)
Theorem filtering_only_drops request_id1 request_id2
    (m1 m2 : gmap string json) body1 body2 :
  m1 !! "text" = m2 !! "text" →
  truthy (default (JBool true) (m2 !! "removeStopwords")) = false →
  (preprocess_for_textrank request_id1 (JObj m1)).2 = Success body1 →
  (preprocess_for_textrank request_id2 (JObj m2)).2 = Success body2 →
  sentences body1 = sentences body2
  ∧ Forall2 dropped_only (processedSentences body1) (processedSentences body2)
  ∧ totalTokens (stats body1) ≤ totalTokens (stats body2).
Proof.
  intros Ht Hoff
    (text1 & rs1 & spans1 & K1 & (Hv1 & Hg1 & Hs1) & _ & Hse1 & Hp1 & _ & _
     & Hst1)%success_body
    (text2 & rs2 & spans2 & K2 & (Hv2 & Hg2 & Hs2) & _ & Hse2 & Hp2 & _ & _
     & Hst2)%success_body.
  cbn in Hg1, Hg2. injection Hg1 as <-. injection Hg2 as <-.
  assert (text1 = text2) as <-.
  { apply validate_input_text in Hv1, Hv2. congruence. }
  assert (spans1 = spans2) as <- by congruence.
  assert (Hrel : Forall2 dropped_only (processedSentences body1)
                   (processedSentences body2)).
  { rewrite Hp1, Hp2. by apply survivors_dropped_only. }
  split; [congruence|]. split; [done|].
  rewrite make_stats_run in Hst1, Hst2.
  injection Hst1 as <-. injection Hst2 as <-. cbn.
  rewrite !sum_token_counts_sum. by apply sum_list_dropped_only.
Qed.

Lemma length_normalized_join (processed : list ProcessedSentence) :
  Forall aligned processed →
  length (mjoin (normalized <$> processed))
  = sum_list (tokenCount <$> processed).
Proof.
  induction 1 as [|s processed (_ & Hn & _) _ IH]; [done|].
  rewrite !fmap_cons. change (mjoin (normalized s :: (normalized <$> processed)))
    with (normalized s ++ mjoin (normalized <$> processed)).
  rewrite length_app, IH, Hn. done.
Qed.

(** X6. There are at most as many key terms as tokens: in a success
    response [keyTermCount] is at most [totalTokens]. *)
Theorem key_terms_bounded request_id data body :
  (preprocess_for_textrank request_id data).2 = Success body →
  keyTermCount (stats body) ≤ totalTokens (stats body).
Proof.
  intros (text & rs & spans & K & _ & HK & _ & Hp & _ & _ & Hst)%success_body.
  rewrite make_stats_run in Hst. injection Hst as <-. cbn.
  rewrite sum_token_counts_sum, Hp.
  pose proof (survivors_aligned rs 0 (texts_of spans)) as Hal.
  rewrite <- (length_normalized_join _ Hal).
  apply submseteq_length, NoDup_submseteq; [apply NoDup_elements|].
  intros t Ht%elem_of_elements.
  destruct (key_term_loop_run (survivors rs 0 (texts_of spans)) ∅ Hal)
    as (K' & HK' & Hin).
  assert (K' = K) as -> by congruence.
  apply Hin in Ht as [?%not_elem_of_empty|(s & i & tg & Hs & _ & _ & Hn)];
    [done|].
  apply list_elem_of_join. exists (normalized s). split.
  - by apply list_elem_of_lookup_2 in Hn.
  - by apply list_elem_of_fmap_2.
Qed.

(** X7. The key terms in terms of the analyzer: a string is a key term
    exactly when it is the lower-cased form of a morpheme, tagged [N...]
    or [V...], of the first candidate for one of the sentences, and,
    when stopwords are removed, is not a stopword. *)
Theorem key_terms_from_analyzer request_id data body remove_stopwords t :
  (preprocess_for_textrank request_id data).2 = Success body →
  get data "removeStopwords" (JBool true) = Return remove_stopwords →
  t ∈ keyTerms body
  ↔ ∃ sent_text analysis score lower_ranked m,
      sent_text ∈ sentences body
      ∧ analyze kiwi_instance sent_text
        = Return ((analysis, score) :: lower_ranked)
      ∧ m ∈ analysis
      ∧ lower (form m) = t
      ∧ (startswith (tag m) "N" = true ∨ startswith (tag m) "V" = true)
      ∧ (truthy remove_stopwords = true → t ∉ KOREAN_STOPWORDS).
Proof.
  intros (text & rs & spans & K & (_ & Hg' & _) & HK & Hse & _ & Hk & _)
    %success_body Hg.
  assert (rs = remove_stopwords) as -> by congruence.
  pose proof (survivors_aligned remove_stopwords 0 (texts_of spans)) as Hal.
  destruct (key_term_loop_run _ ∅ Hal) as (K' & HK' & Hin).
  assert (K' = K) as -> by congruence.
  rewrite Hk, Hse, elem_of_elements, Hin. split.
  - intros [?%not_elem_of_empty|(s & i & tg & Hs & Hp & Htg & Hn)]; [done|].
    apply elem_of_survivors in Hs as (i0 & sent_text & Hi0 & Hs).
    apply process_sentence_returns in Hs
      as (analysis & score & rest & Han & ->).
    cbn [posTags normalized] in Hp, Hn.
    apply list_lookup_fmap_Some in Hp as (m & -> & Hm).
    apply list_lookup_fmap_Some in Hn as (m' & -> & Hm').
    assert (m' = m) as -> by congruence.
    exists sent_text, analysis, score, rest, m.
    apply list_elem_of_lookup_2 in Hi0, Hm.
    apply is_key_tag_prefix in Htg.
    destruct (truthy remove_stopwords).
    + apply list_elem_of_filter in Hm as [Hkept Hm]. by repeat split.
    + by repeat split.
  - intros (sent_text & analysis & score & rest & m
            & [i0 Hi0]%list_elem_of_lookup & Han & Hm & <- & Htg & Hstop).
    right.
    set (chosen := if truthy remove_stopwords then filter kept analysis
                   else analysis).
    assert (Hc : m ∈ chosen).
    { unfold chosen. destruct (truthy remove_stopwords); [|done].
      apply list_elem_of_filter. split; [|done]. by apply Hstop. }
    apply list_elem_of_lookup in Hc as [i Hi].
    exists {| index := 0 + i0; sentence := sent_text;
              tokens := form <$> chosen; normalized := norm <$> chosen;
              posTags := tag <$> chosen; tokenCount := length chosen |},
      i, (tag m).
    split; [|split; [|split]].
    + apply elem_of_survivors. exists i0, sent_text. split; [done|].
      apply process_sentence_returns. by exists analysis, score, rest.
    + cbn [posTags]. by rewrite list_lookup_fmap, Hi.
    + by apply is_key_tag_prefix.
    + cbn [normalized]. by rewrite list_lookup_fmap, Hi.
Qed.

Lemma survivors_index_ge remove_stopwords idx sentence_texts :
  Forall (λ s, idx ≤ index s) (survivors remove_stopwords idx sentence_texts).
Proof.
  revert idx.
  induction sentence_texts as [|sent_text rest IH]; intros idx; cbn;
    [constructor|].
  assert (Hrest : Forall (λ s, idx ≤ index s)
                    (survivors remove_stopwords (S idx) rest)).
  { eapply Forall_impl; [apply IH|]. cbn. lia. }
  destruct (outcome (process_sentence remove_stopwords idx sent_text))
    as [s|e] eqn:Hs; [|done].
  constructor; [|done].
  apply process_sentence_aligned in Hs as (_ & -> & _). lia.
Qed.

Lemma survivors_increasing remove_stopwords idx sentence_texts i j s1 s2 :
  survivors remove_stopwords idx sentence_texts !! i = Some s1 →
  survivors remove_stopwords idx sentence_texts !! j = Some s2 →
  i < j → index s1 < index s2.
Proof.
  revert idx i j.
  induction sentence_texts as [|sent_text rest IH]; intros idx i j; cbn;
    [done|].
  destruct (outcome (process_sentence remove_stopwords idx sent_text))
    as [s|e] eqn:Hs; [|apply IH].
  destruct j as [|j]; [lia|]. destruct i as [|i]; cbn.
  - intros [= <-] Hj _.
    apply process_sentence_aligned in Hs as (_ & -> & _).
    pose proof (survivors_index_ge remove_stopwords (S idx) rest) as Hge.
    rewrite Forall_lookup in Hge. apply Hge in Hj. lia.
  - intros Hi Hj Hlt. apply (IH (S idx) i j Hi Hj). lia.
Qed.

(** X8. Records point back into [sentences]: in a success response the
    [sentence] of a record is the element of [sentences] at its [index],
    and the [index] values increase strictly along [processedSentences],
    so no two records share one. *)
Theorem records_point_back request_id data body :
  (preprocess_for_textrank request_id data).2 = Success body →
  (∀ s, s ∈ processedSentences body →
     sentences body !! index s = Some (sentence s))
  ∧ (∀ i j s1 s2,
       processedSentences body !! i = Some s1 →
       processedSentences body !! j = Some s2 →
       i < j → index s1 < index s2).
Proof.
  intros (text & rs & spans & K & _ & _ & Hse & Hp & _)%success_body.
  rewrite Hp, Hse. split; [|apply survivors_increasing].
  intros s (i & sent_text & Hi & Hs)%elem_of_survivors.
  by apply process_sentence_aligned in Hs as (_ & -> & ->).
Qed.

End More.

(** ** Properties of the service endpoints *)

Section ServiceProperties.

Context {runtime : Runtime} {service : Service}.

Lemma str_not_in_list (key : string) (l : list json) :
  existsb (λ v, match v with
                | JStr s => String.eqb s key
                | _ => false
                end) l = false
  ↔ JStr key ∉ l.
Proof.
  induction l as [|v l IH]; cbn.
  - split; [intros _ ?%elem_of_nil; done | done].
  - rewrite orb_false_iff, IH, not_elem_of_cons. split.
    + intros [Hv ?]. split; [|done]. intros <-.
      by rewrite String.eqb_refl in Hv.
    + intros [Hv ?]. split; [|done].
      destruct v; try done. apply String.eqb_neq. congruence.
Qed.

Lemma handler_serve ep :
  handler ep
  = serve ep match ep with
             | Morpheme => morpheme_own
             | SentenceSplit => sentence_split_own
             | Tokenize => tokenize_own
             | Preprocess => preprocess_own
             | AnalyzeSimple => analyze_own
             end.
Proof. by destruct ep. Qed.

(** X9. The 400 answer of the service handlers: a handler leaves by its
    early return exactly when the payload is taken as false, or is a
    mapping without the key [text], a list without the element ['text'],
    or a string without the substring [text]; each of the five handlers
    then answers 400 ["No text provided"] without calling [kiwi]. *)
Theorem no_text_provided data :
  (requested_text data = Return None
   ↔ truthy data = false
     ∨ (∃ m, data = JObj m ∧ m !! "text" = None)
     ∨ (∃ l, data = JArr l ∧ JStr "text" ∉ l)
     ∨ (∃ s, data = JStr s ∧ substring_in "text" s = false))
  ∧ (requested_text data = Return None →
     ∀ ep, handler ep data = ([], ErrorReply 400 "No text provided")).
Proof.
  split.
  - unfold requested_text. destruct (truthy data) eqn:Hd; cbn.
    2: { split; [by left | done]. }
    destruct data as [| |z|q|s|l|m]; cbn; try done.
    + split; [done|]. intros [?|[(? & ? & _)|[(? & ? & _)|(? & ? & _)]]]; done.
    + split; [done|]. intros [?|[(? & ? & _)|[(? & ? & _)|(? & ? & _)]]]; done.
    + split; [done|]. intros [?|[(? & ? & _)|[(? & ? & _)|(? & ? & _)]]]; done.
    + destruct (substring_in "text" s) eqn:Hs; cbn.
      * split; [done|].
        intros [?|[(? & ? & _)|[(? & ? & _)|(? & [= <-] & ?)]]]; congruence.
      * split; [|done]. intros _. do 3 right. by exists s.
    + destruct (existsb _ l) eqn:Hl; cbn.
      * split; [done|].
        intros [?|[(? & ? & _)|[(? & [= <-] & Hn)|(? & ? & _)]]]; try done.
        apply str_not_in_list in Hn. congruence.
      * split; [|done]. intros _. right; right; left. exists l.
        split; [done|]. by apply str_not_in_list.
    + destruct (m !! "text") as [v|] eqn:Hm; cbn.
      * split; [by destruct (slice50 v)|].
        intros [?|[(? & [= <-] & ?)|[(? & ? & _)|(? & ? & _)]]]; congruence.
      * split; [|done]. intros _. right; left. by exists m.
  - intros Hnone ep. rewrite handler_serve. unfold serve. by rewrite Hnone.
Qed.

Lemma bind_ask {A B} (c : kiwi_call) (r : result string A)
    (f : A → served B) :
  ask c r ≫= f
  = match r with
    | Return a => Served (c :: made (f a)) (ended (f a))
    | Raise e => Served [c] (Raise e)
    end.
Proof. by destruct r. Qed.

Lemma bind_returned {A B} (m : served A) (f : A → served B) cs a :
  m = Served cs (Return a) →
  m ≫= f = Served (cs ++ made (f a)) (ended (f a)).
Proof. by intros ->. Qed.

Lemma bind_raised {A B} (m : served A) (f : A → served B) cs e :
  m = Served cs (Raise e) → m ≫= f = Served cs (Raise e).
Proof. by intros ->. Qed.

Lemma requested_text_mapping (m : gmap string json) v :
  m !! "text" = Some v →
  requested_text (JObj m)
  = match slice50 v with
    | Return arg => Return (Some arg)
    | Raise e => Raise e
    end.
Proof.
  intros Hm. unfold requested_text.
  assert (truthy (JObj m) = true) as ->.
  { cbn. rewrite bool_decide_eq_false_2; [done|].
    intros ->. by rewrite lookup_empty in Hm. }
  cbn. rewrite Hm. by rewrite bool_decide_eq_true_2.
Qed.

Lemma requested_text_some data arg :
  requested_text data = Return (Some arg) →
  ∃ m, data = JObj m
       ∧ ((∃ s, arg = StrText s ∧ m !! "text" = Some (JStr s))
          ∨ (∃ l, arg = ListText l ∧ m !! "text" = Some (JArr l))).
Proof.
  unfold requested_text. destruct (truthy data); cbn; [|done].
  destruct data as [| |z|q|s|l|m]; cbn; try done.
  - by destruct (substring_in "text" s).
  - by destruct (existsb _ l).
  - destruct (m !! "text") as [v|] eqn:Hm; cbn; [|done].
    destruct v; cbn; try done; intros [= <-]; exists m; split; eauto.
Qed.

(** X10. [kiwi] is reached with a text only: unless the payload is a
    mapping whose [text] is a string or a list, each of the five handlers
    answers 400 ["No text provided"] or a 500, and makes no call on
    [kiwi]. *)
Theorem kiwi_needs_text ep data :
  (∀ m s, data = JObj m → m !! "text" ≠ Some (JStr s)) →
  (∀ m l, data = JObj m → m !! "text" ≠ Some (JArr l)) →
  ∃ r, handler ep data = ([], r)
       ∧ (r = ErrorReply 400 "No text provided" ∨ ∃ e, r = ErrorReply 500 e).
Proof.
  intros Hstr Hlist. rewrite handler_serve. unfold serve.
  destruct (requested_text data) as [[arg|]|e] eqn:Hr; cbn.
  - apply requested_text_some in Hr
      as (m & -> & [(s & _ & Hs)|(l & _ & Hl)]).
    + by destruct (Hstr m s).
    + by destruct (Hlist m l).
  - eexists. split; [done|]. by left.
  - eexists. split; [done|]. right. by eexists.
Qed.

(** X11. The service handlers do not look at the content of a string
    [text]: for a mapping whose [text] is any string, empty and blank
    ones included, each handler goes on to its first call on [kiwi] with
    that string. *)
Theorem str_text_reaches_kiwi ep (m : gmap string json) text :
  m !! "text" = Some (JStr text) →
  ∃ rest r, handler ep (JObj m) = (first_call ep text :: rest, r).
Proof.
  intros Hm. rewrite handler_serve. unfold serve.
  rewrite (requested_text_mapping m _ Hm). cbn [slice50].
  destruct ep; cbn [first_call];
    unfold morpheme_own, sentence_split_own, tokenize_own, preprocess_own,
      analyze_own, ask, mbind at 1, served_bind; cbn [ended made];
    match goal with
    | |- context [match ?r with Return _ => _ | Raise _ => _ end] =>
        destruct r
    end; cbn; eauto.
Qed.

(** X12. [/sentence-split] and the TextRank endpoint agree: for a
    payload on which the TextRank endpoint answers with success,
    [/sentence-split] answers with the same [sentences], and its [count]
    is [sentenceCount]. *)
Theorem sentence_split_agrees request_id data body :
  (preprocess_for_textrank request_id data).2 = Success body →
  ∃ text,
    validate_input data = Return text
    ∧ sentence_split data
      = ([CallSplitIntoSents text],
         SentenceSplitReply (sentences body) (sentenceCount body)).
Proof.
  intros (text & rs & spans & K & (Hv & _ & Hs) & _ & Hse & _ & _ & Hc & _)
    %success_body.
  exists text. split; [done|].
  destruct (validate_input_is_mapping _ _ Hv) as [m ->].
  apply validate_input_text in Hv.
  unfold sentence_split, serve.
  rewrite (requested_text_mapping m _ Hv). cbn [slice50].
  unfold sentence_split_own, ask, mbind, served_bind. cbn [ended made].
  rewrite Hs. cbn. by rewrite Hse, Hc.
Qed.

Lemma tokenize_loop_returns (sentence_texts : list string) tokenized :
  Forall (λ sent, ∃ tokens, kiwi_tokenize sent = Return tokens)
    sentence_texts →
  ∃ more,
    tokenize_loop sentence_texts tokenized
    = Served (CallTokenize <$> sentence_texts) (Return (tokenized ++ more))
    ∧ Forall2 (λ sent forms, ∃ tokens, kiwi_tokenize sent = Return tokens
                                       ∧ forms = form <$> tokens)
        sentence_texts more.
Proof.
  intros Hall. revert tokenized.
  induction Hall as [|sent rest [tokens Ht] _ IH]; intros tokenized.
  - exists []. cbn. by rewrite app_nil_r.
  - destruct (IH (tokenized ++ [form <$> tokens])) as (more & Hrun & Hrel).
    exists ((form <$> tokens) :: more). split.
    + cbn [tokenize_loop]. unfold ask, mbind, served_bind. cbn [ended made].
      rewrite Ht, Hrun. cbn. by rewrite <- app_assoc.
    + constructor; [by exists tokens | done].
Qed.

Lemma tokenize_loop_raises (before after : list string) sent msg tokenized :
  Forall (λ sent, ∃ tokens, kiwi_tokenize sent = Return tokens) before →
  kiwi_tokenize sent = Raise msg →
  tokenize_loop (before ++ sent :: after) tokenized
  = Served (CallTokenize <$> before ++ [sent]) (Raise msg).
Proof.
  intros Hall Hs. revert tokenized.
  induction Hall as [|s rest [tokens Ht] _ IH]; intros tokenized.
  - cbn [app tokenize_loop]. unfold ask, mbind, served_bind.
    cbn [ended made]. by rewrite Hs.
  - cbn [app tokenize_loop]. unfold ask, mbind, served_bind.
    cbn [ended made]. rewrite Ht, IH. done.
Qed.

(** X13. [/preprocess] when every sentence tokenizes: the answer lists
    the sentences of the segmenter and, for each in order, the forms of
    its tokens; [kiwi] was asked to split the text and then to tokenize
    each sentence once, in order. *)
Theorem preprocess_returns (m : gmap string json) text spans :
  m !! "text" = Some (JStr text) →
  split_into_sents kiwi_instance text = Return spans →
  Forall (λ sent, ∃ tokens, kiwi_tokenize sent = Return tokens)
    (texts_of spans) →
  ∃ tokenized,
    preprocess (JObj m)
    = (CallSplitIntoSents text :: (CallTokenize <$> texts_of spans),
       PreprocessReply (texts_of spans) tokenized)
    ∧ Forall2 (λ sent forms, ∃ tokens, kiwi_tokenize sent = Return tokens
                                       ∧ forms = form <$> tokens)
        (texts_of spans) tokenized.
Proof.
  intros Hm Hs Hall.
  destruct (tokenize_loop_returns _ [] Hall) as (tokenized & Hrun & Hrel).
  exists tokenized. split; [|done].
  unfold preprocess, serve.
  rewrite (requested_text_mapping m _ Hm). cbn [slice50].
  unfold preprocess_own. rewrite bind_ask, Hs. cbv zeta.
  rewrite (bind_returned _ _ _ _ Hrun). cbn. by rewrite app_nil_r.
Qed.

(** X14. [/preprocess] has no isolation of sentences: when tokenizing
    one sentence raises, the sentences before it having tokenized, the
    whole request is answered with status 500 and the message of that
    exception, and the sentences after it are not tokenized. *)
Theorem preprocess_raises (m : gmap string json) text spans
    (before after : list string) sent msg :
  m !! "text" = Some (JStr text) →
  split_into_sents kiwi_instance text = Return spans →
  texts_of spans = before ++ sent :: after →
  Forall (λ sent, ∃ tokens, kiwi_tokenize sent = Return tokens) before →
  kiwi_tokenize sent = Raise msg →
  preprocess (JObj m)
  = (CallSplitIntoSents text :: (CallTokenize <$> before ++ [sent]),
     ErrorReply 500 msg).
Proof.
  intros Hm Hs Htexts Hall Hsent.
  unfold preprocess, serve.
  rewrite (requested_text_mapping m _ Hm). cbn [slice50].
  unfold preprocess_own. rewrite bind_ask, Hs. cbv zeta. rewrite Htexts.
  by rewrite (bind_raised _ _ _ _
                (tokenize_loop_raises _ after _ _ [] Hall Hsent)).
Qed.

Lemma formatted_result_from (ranked : list (list Token * Q))
    (formatted_result : list (list (string * string * nat * nat))) :
  foldl (λ (formatted_result : list (list (string * string * nat * nat)))
           '((tokens, _) : list Token * Q),
           formatted_result ++ [as_tuple <$> tokens]) formatted_result ranked
  = formatted_result
    ++ ((λ candidate : list Token * Q, as_tuple <$> candidate.1) <$> ranked).
Proof.
  revert formatted_result.
  induction ranked as [|[tokens score] ranked IH]; intros formatted_result;
    cbn.
  - by rewrite app_nil_r.
  - by rewrite IH, <- app_assoc.
Qed.

(** X15. [/morpheme] on a string text: one call of [analyze]; the answer
    lists the candidates in rank order, none dropped, each as the list of
    its tokens in order, a token as [(form, tag, start, len)]; an
    exception of [analyze] gives status 500 with its message. *)
Theorem morpheme_lists_candidates (m : gmap string json) text :
  m !! "text" = Some (JStr text) →
  morpheme (JObj m)
  = ([CallAnalyze text],
     match analyze kiwi_instance text with
     | Return ranked =>
         MorphemeReply
           ((λ candidate : list Token * Q, as_tuple <$> candidate.1)
            <$> ranked)
     | Raise msg => ErrorReply 500 msg
     end).
Proof.
  intros Hm. unfold morpheme, serve.
  rewrite (requested_text_mapping m _ Hm). cbn [slice50].
  unfold morpheme_own. rewrite bind_ask.
  destruct (analyze kiwi_instance text) as [ranked|msg]; [|done].
  cbn. by rewrite formatted_result_from.
Qed.

Lemma analyzed_from (tokens : list Token) (result : list AnalyzedToken) :
  foldl (λ result token,
           result ++ [{| a_form := form token;
                         a_tag := tag token;
                         a_start := start token;
                         a_end := start token + len_str (form token) |}])
        result tokens
  = result ++ ((λ token, {| a_form := form token;
                            a_tag := tag token;
                            a_start := start token;
                            a_end := start token + len_str (form token) |})
               <$> tokens).
Proof.
  revert result. induction tokens as [|token tokens IH]; intros result; cbn.
  - by rewrite app_nil_r.
  - by rewrite IH, <- app_assoc.
Qed.

(** X16. [/tokenize] and [/analyze] agree: on a string text both make the
    same single call of [kiwi.tokenize]; when it returns, [/tokenize]
    lists the forms of its tokens with their number as [count], and
    [/analyze] has one entry per token, in order, with the same forms,
    the tags and starts of the tokens, and [end = start + len(form)];
    when it raises, both answer 500 with its message. *)
Theorem tokenize_and_analyze_agree (m : gmap string json) text :
  m !! "text" = Some (JStr text) →
  match kiwi_tokenize text with
  | Return tokens =>
      tokenize (JObj m)
      = ([CallTokenize text],
         TokenizeReply (form <$> tokens) (length tokens))
      ∧ ∃ entries,
          analyze_simple (JObj m) = ([CallTokenize text], AnalyzeReply entries)
          ∧ a_form <$> entries = form <$> tokens
          ∧ a_tag <$> entries = tag <$> tokens
          ∧ a_start <$> entries = start <$> tokens
          ∧ Forall (λ entry, a_end entry
                             = a_start entry + len_str (a_form entry))
              entries
  | Raise msg =>
      tokenize (JObj m) = ([CallTokenize text], ErrorReply 500 msg)
      ∧ analyze_simple (JObj m) = ([CallTokenize text], ErrorReply 500 msg)
  end.
Proof.
  intros Hm. unfold tokenize, analyze_simple, serve.
  rewrite (requested_text_mapping m _ Hm). cbn [slice50].
  unfold tokenize_own, analyze_own. rewrite !bind_ask.
  destruct (kiwi_tokenize text) as [tokens|msg]; [|done].
  cbn. rewrite length_fmap, analyzed_from. cbn. split; [done|].
  eexists. split; [done|].
  rewrite <- !list_fmap_compose. repeat split; try done.
  apply Forall_fmap, Forall_forall. by intros token _.
Qed.

(** X17. [/morpheme] and the TextRank endpoint agree: for a record of a
    TextRank success response made without filtering, [/morpheme] on the
    sentence of the record answers with a first candidate whose forms
    are the [tokens] of the record and whose tags are its [posTags]. *)
Theorem morpheme_matches_record request_id data body remove_stopwords s
    (m : gmap string json) :
  (preprocess_for_textrank request_id data).2 = Success body →
  get data "removeStopwords" (JBool true) = Return remove_stopwords →
  truthy remove_stopwords = false →
  s ∈ processedSentences body →
  m !! "text" = Some (JStr (sentence s)) →
  ∃ best lower_ranked,
    morpheme (JObj m)
    = ([CallAnalyze (sentence s)], MorphemeReply (best :: lower_ranked))
    ∧ tokens s = (λ t : string * string * nat * nat, t.1.1.1) <$> best
    ∧ posTags s = (λ t : string * string * nat * nat, t.1.1.2) <$> best.
Proof.
  intros Hbody Hg Hoff Hs Hm.
  destruct (record_origin _ _ _ _ _ Hbody Hg Hs)
    as (analysis & score & rest & Han & Hcols).
  rewrite Hoff in Hcols. cbn in Hcols. destruct Hcols as (Ht & _ & Hp).
  unfold morpheme, serve.
  rewrite (requested_text_mapping m _ Hm). cbn [slice50].
  unfold morpheme_own. rewrite bind_ask, Han. cbn.
  rewrite formatted_result_from. cbn.
  eexists _, _. split; [done|].
  by rewrite Ht, Hp, <- !list_fmap_compose.
Qed.

End ServiceProperties.

(** ** The further properties on concrete requests *)

Lemma payload_relevance_witness :
  ServiceDemo.loose ≠ ∅
  ∧ ServiceDemo.strict ≠ ∅
  ∧ Demo.run "r1" (JObj ServiceDemo.loose)
    = Demo.run "r1" (JObj ServiceDemo.strict).
Proof.
  assert (H1 : ServiceDemo.loose ≠ ∅).
  { intros H. apply (f_equal (lookup "text")) in H. vm_compute in H.
    discriminate. }
  assert (H2 : ServiceDemo.strict ≠ ∅).
  { intros H. apply (f_equal (lookup "text")) in H. vm_compute in H.
    discriminate. }
  split; [exact H1|]. split; [exact H2|].
  apply (payload_relevance (runtime := Demo.runtime) "r1" _ _ H1 H2);
    vm_compute; reflexivity.
Defined.

Lemma no_record_iff_witness :
  (Demo.run "r3" ServiceDemo.hopeless).2 = Success ServiceDemo.nothing
  ∧ processedSentences ServiceDemo.nothing = []
  ∧ sentenceCount ServiceDemo.nothing = 2
  ∧ keyTerms ServiceDemo.nothing = []
  ∧ stats ServiceDemo.nothing
    = {| totalTokens := 0; avgTokensPerSentence := 0%Q; keyTermCount := 0 |}.
Proof.
  assert (Hb : (Demo.run "r3" ServiceDemo.hopeless).2
               = Success ServiceDemo.nothing) by (vm_compute; reflexivity).
  split; [exact Hb|]. split; [reflexivity|]. split; [reflexivity|].
  destruct (no_record_iff (runtime := Demo.runtime) "r3" _ _ Hb) as [_ Hz].
  exact (Hz eq_refl).
Defined.

Lemma filtering_only_drops_witness :
  (Demo.run "r1" (Demo.request Demo.five true)).2 = Success Demo.filtered
  ∧ (Demo.run "r2" (Demo.request Demo.five false)).2
    = Success Demo.unfiltered
  ∧ Forall2 dropped_only (processedSentences Demo.filtered)
      (processedSentences Demo.unfiltered)
  ∧ totalTokens (stats Demo.filtered) ≤ totalTokens (stats Demo.unfiltered).
Proof.
  assert (H1 : (Demo.run "r1" (Demo.request Demo.five true)).2
               = Success Demo.filtered) by (vm_compute; reflexivity).
  assert (H2 : (Demo.run "r2" (Demo.request Demo.five false)).2
               = Success Demo.unfiltered) by (vm_compute; reflexivity).
  split; [exact H1|]. split; [exact H2|].
  assert (Ht : ServiceDemo.with_option true !! "text"
               = ServiceDemo.with_option false !! "text")
    by (vm_compute; reflexivity).
  assert (Hoff : truthy (default (JBool true)
                           (ServiceDemo.with_option false
                              !! "removeStopwords")) = false)
    by (vm_compute; reflexivity).
  destruct (filtering_only_drops (runtime := Demo.runtime) "r1" "r2"
              _ _ _ _ Ht Hoff H1 H2) as (_ & Hrel & Hle).
  split; [exact Hrel | exact Hle].
Defined.

Lemma key_terms_bounded_witness :
  (Demo.run "r1" (Demo.request Demo.five true)).2 = Success Demo.filtered
  ∧ keyTermCount (stats Demo.filtered) ≤ totalTokens (stats Demo.filtered).
Proof.
  assert (Hb : (Demo.run "r1" (Demo.request Demo.five true)).2
               = Success Demo.filtered) by (vm_compute; reflexivity).
  split; [exact Hb|].
  exact (key_terms_bounded (runtime := Demo.runtime) "r1" _ _ Hb).
Defined.

Lemma key_terms_from_analyzer_witness :
  (Demo.run "r1" (Demo.request Demo.five true)).2 = Success Demo.filtered
  ∧ get (Demo.request Demo.five true) "removeStopwords" (JBool true)
    = Return (JBool true)
  ∧ ("kiwi"%string ∉ keyTerms Demo.filtered)
  ∧ ("고양이"%string ∈ keyTerms Demo.filtered
     ↔ ∃ sent_text analysis score lower_ranked m,
         sent_text ∈ sentences Demo.filtered
         ∧ analyze Demo.kiwi sent_text
           = Return ((analysis, score) :: lower_ranked)
         ∧ m ∈ analysis
         ∧ Demo.ascii_lower (form m) = "고양이"%string
         ∧ (startswith (tag m) "N" = true ∨ startswith (tag m) "V" = true)
         ∧ (truthy (JBool true) = true
            → "고양이"%string ∉ KOREAN_STOPWORDS)).
Proof.
  assert (Hb : (Demo.run "r1" (Demo.request Demo.five true)).2
               = Success Demo.filtered) by (vm_compute; reflexivity).
  assert (Hg : get (Demo.request Demo.five true) "removeStopwords"
                 (JBool true) = Return (JBool true))
    by (vm_compute; reflexivity).
  split; [exact Hb|]. split; [exact Hg|]. split.
  - apply (bool_decide_unpack _). vm_compute. exact I.
  - exact (key_terms_from_analyzer (runtime := Demo.runtime) "r1" _ _ _
             "고양이"%string Hb Hg).
Defined.

Lemma records_point_back_witness :
  (Demo.run "r1" (Demo.request Demo.five true)).2 = Success Demo.filtered
  ∧ Demo.filtered_fourth ∈ processedSentences Demo.filtered
  ∧ sentences Demo.filtered !! index Demo.filtered_fourth
    = Some (sentence Demo.filtered_fourth)
  ∧ index Demo.filtered_fourth = 3.
Proof.
  assert (Hb : (Demo.run "r1" (Demo.request Demo.five true)).2
               = Success Demo.filtered) by (vm_compute; reflexivity).
  assert (Hs : Demo.filtered_fourth ∈ processedSentences Demo.filtered)
    by (apply (list_elem_of_lookup_2 _ 2); vm_compute; reflexivity).
  split; [exact Hb|]. split; [exact Hs|]. split; [|reflexivity].
  destruct (records_point_back (runtime := Demo.runtime) "r1" _ _ Hb)
    as [Hback _].
  exact (Hback _ Hs).
Defined.

Lemma no_text_provided_witness :
  ServiceDemo.handle Tokenize Demo.no_text
  = ([], ErrorReply 400 "No text provided")
  ∧ ServiceDemo.handle Morpheme (JStr "hello")
    = ([], ErrorReply 400 "No text provided")
  ∧ ServiceDemo.handle Preprocess (JArr [JStr "txt"])
    = ([], ErrorReply 400 "No text provided").
Proof.
  destruct (no_text_provided (runtime := Demo.runtime)
              (service := ServiceDemo.service) Demo.no_text) as [_ H1].
  destruct (no_text_provided (runtime := Demo.runtime)
              (service := ServiceDemo.service) (JStr "hello")) as [_ H2].
  destruct (no_text_provided (runtime := Demo.runtime)
              (service := ServiceDemo.service) (JArr [JStr "txt"]))
    as [_ H3].
  split; [|split].
  - apply H1. vm_compute. reflexivity.
  - apply H2. vm_compute. reflexivity.
  - apply H3. vm_compute. reflexivity.
Defined.

Lemma kiwi_needs_text_witness :
  (∀ m s, Demo.number_text = JObj m → m !! "text" ≠ Some (JStr s))
  ∧ (∀ m l, Demo.number_text = JObj m → m !! "text" ≠ Some (JArr l))
  ∧ ServiceDemo.handle SentenceSplit Demo.number_text
    = ([], ErrorReply 500 "'int' object is not subscriptable").
Proof.
  assert (H1 : ∀ m s, Demo.number_text = JObj m
                      → m !! "text" ≠ Some (JStr s)).
  { intros m s [= <-]. vm_compute. discriminate. }
  assert (H2 : ∀ m l, Demo.number_text = JObj m
                      → m !! "text" ≠ Some (JArr l)).
  { intros m l [= <-]. vm_compute. discriminate. }
  split; [exact H1|]. split; [exact H2|].
  destruct (kiwi_needs_text (runtime := Demo.runtime)
              (service := ServiceDemo.service) SentenceSplit _ H1 H2)
    as (r & Hr & _).
  vm_compute. reflexivity.
Defined.

Lemma str_text_reaches_kiwi_witness :
  ServiceDemo.blank !! "text" = Some (JStr "   ")
  ∧ ∃ rest r,
      ServiceDemo.handle SentenceSplit (JObj ServiceDemo.blank)
      = (CallSplitIntoSents "   " :: rest, r).
Proof.
  assert (Hm : ServiceDemo.blank !! "text" = Some (JStr "   "))
    by (vm_compute; reflexivity).
  split; [exact Hm|].
  exact (str_text_reaches_kiwi (runtime := Demo.runtime)
           (service := ServiceDemo.service) SentenceSplit _ _ Hm).
Defined.

Lemma sentence_split_agrees_witness :
  (Demo.run "r1" (Demo.request Demo.five true)).2 = Success Demo.filtered
  ∧ ∃ text,
      validate_input (runtime := Demo.runtime) (Demo.request Demo.five true)
      = Return text
      ∧ ServiceDemo.handle SentenceSplit (Demo.request Demo.five true)
        = ([CallSplitIntoSents text],
           SentenceSplitReply (sentences Demo.filtered)
             (sentenceCount Demo.filtered)).
Proof.
  assert (Hb : (Demo.run "r1" (Demo.request Demo.five true)).2
               = Success Demo.filtered) by (vm_compute; reflexivity).
  split; [exact Hb|].
  exact (sentence_split_agrees (runtime := Demo.runtime)
           (service := ServiceDemo.service) "r1" _ _ Hb).
Defined.

Lemma preprocess_returns_witness :
  ServiceDemo.two_sentences !! "text" = Some (JStr ServiceDemo.two)
  ∧ ServiceDemo.handle Preprocess (JObj ServiceDemo.two_sentences)
    = ([CallSplitIntoSents ServiceDemo.two;
        CallTokenize "고양이가 빠르게 달린다."; CallTokenize "이 고양이"],
       PreprocessReply ["고양이가 빠르게 달린다."; "이 고양이"]%string
         [["고양이"; "가"; "빠르"; "게"; "달리"; "ᆫ다"; "."];
          ["이"; "고양이"]]%string)
  ∧ ∃ tokenized,
      ServiceDemo.handle Preprocess (JObj ServiceDemo.two_sentences)
      = (CallSplitIntoSents ServiceDemo.two
         :: (CallTokenize
             <$> ["고양이가 빠르게 달린다."; "이 고양이"]%string),
         PreprocessReply ["고양이가 빠르게 달린다."; "이 고양이"]%string
           tokenized).
Proof.
  assert (Hm : ServiceDemo.two_sentences !! "text"
               = Some (JStr ServiceDemo.two)) by (vm_compute; reflexivity).
  assert (Hs : split_into_sents Demo.kiwi ServiceDemo.two
               = Return (Demo.span <$> ["고양이가 빠르게 달린다."; "이 고양이"]%string))
    by (vm_compute; reflexivity).
  assert (Hall : Forall (λ sent, ∃ tokens,
                           ServiceDemo.tokenize sent = Return tokens)
                   (texts_of (Demo.span
                              <$> ["고양이가 빠르게 달린다."; "이 고양이"]%string))).
  { repeat constructor; eexists; vm_compute; reflexivity. }
  split; [exact Hm|]. split; [vm_compute; reflexivity|].
  destruct (preprocess_returns (runtime := Demo.runtime)
              (service := ServiceDemo.service) _ _ _ Hm Hs Hall)
    as (tokenized & Hrun & _).
  exists tokenized. exact Hrun.
Defined.

Lemma preprocess_raises_witness :
  ServiceDemo.three_sentences !! "text" = Some (JStr ServiceDemo.three)
  ∧ ServiceDemo.tokenize "nope" = Raise "tokenization failed"%string
  ∧ ServiceDemo.handle Preprocess (JObj ServiceDemo.three_sentences)
    = ([CallSplitIntoSents ServiceDemo.three;
        CallTokenize "고양이가 빠르게 달린다."; CallTokenize "nope"],
       ErrorReply 500 "tokenization failed").
Proof.
  assert (Hm : ServiceDemo.three_sentences !! "text"
               = Some (JStr ServiceDemo.three)) by (vm_compute; reflexivity).
  assert (Hs : split_into_sents Demo.kiwi ServiceDemo.three
               = Return (Demo.span
                         <$> ["고양이가 빠르게 달린다."; "nope"; "이 고양이"]%string))
    by (vm_compute; reflexivity).
  assert (Hall : Forall (λ sent, ∃ tokens,
                           ServiceDemo.tokenize sent = Return tokens)
                   ["고양이가 빠르게 달린다."%string]).
  { repeat constructor; eexists; vm_compute; reflexivity. }
  assert (Hbad : ServiceDemo.tokenize "nope"
                 = Raise "tokenization failed"%string)
    by (vm_compute; reflexivity).
  split; [exact Hm|]. split; [exact Hbad|].
  exact (preprocess_raises (runtime := Demo.runtime)
           (service := ServiceDemo.service) _ _ _
           ["고양이가 빠르게 달린다."%string] ["이 고양이"%string] "nope" _
           Hm Hs eq_refl Hall Hbad).
Defined.

Lemma morpheme_lists_candidates_witness :
  ServiceDemo.one_sentence !! "text" = Some (JStr "이 고양이")
  ∧ ServiceDemo.handle Morpheme (JObj ServiceDemo.one_sentence)
    = ([CallAnalyze "이 고양이"],
       MorphemeReply [[("이", "MM", 0, 3); ("고양이", "NNG", 0, 9)]]%string).
Proof.
  assert (Hm : ServiceDemo.one_sentence !! "text" = Some (JStr "이 고양이"))
    by (vm_compute; reflexivity).
  split; [exact Hm|].
  pose proof (morpheme_lists_candidates (runtime := Demo.runtime)
                (service := ServiceDemo.service) _ _ Hm) as Hrun.
  vm_compute in Hrun. exact Hrun.
Defined.

Lemma tokenize_and_analyze_agree_witness :
  ServiceDemo.one_sentence !! "text" = Some (JStr "이 고양이")
  ∧ ServiceDemo.handle Tokenize (JObj ServiceDemo.one_sentence)
    = ([CallTokenize "이 고양이"], TokenizeReply ["이"; "고양이"]%string 2)
  ∧ ServiceDemo.handle AnalyzeSimple (JObj ServiceDemo.one_sentence)
    = ([CallTokenize "이 고양이"],
       AnalyzeReply
         [{| a_form := "이"; a_tag := "MM"; a_start := 0; a_end := 1 |};
          {| a_form := "고양이"; a_tag := "NNG"; a_start := 0; a_end := 3 |}]).
Proof.
  assert (Hm : ServiceDemo.one_sentence !! "text" = Some (JStr "이 고양이"))
    by (vm_compute; reflexivity).
  split; [exact Hm|].
  pose proof (tokenize_and_analyze_agree
                (service := ServiceDemo.service) _ _ Hm) as Hrun.
  vm_compute in Hrun. destruct Hrun as [Htok (entries & Han & _)].
  split; [exact Htok|]. vm_compute. reflexivity.
Defined.

Lemma morpheme_matches_record_witness :
  (Demo.run "r2" (Demo.request Demo.five false)).2 = Success Demo.unfiltered
  ∧ Demo.unfiltered_fourth ∈ processedSentences Demo.unfiltered
  ∧ ServiceDemo.one_sentence !! "text"
    = Some (JStr (sentence Demo.unfiltered_fourth))
  ∧ ∃ best lower_ranked,
      ServiceDemo.handle Morpheme (JObj ServiceDemo.one_sentence)
      = ([CallAnalyze (sentence Demo.unfiltered_fourth)],
         MorphemeReply (best :: lower_ranked))
      ∧ tokens Demo.unfiltered_fourth
        = (λ t : string * string * nat * nat, t.1.1.1) <$> best
      ∧ posTags Demo.unfiltered_fourth
        = (λ t : string * string * nat * nat, t.1.1.2) <$> best.
Proof.
  assert (Hb : (Demo.run "r2" (Demo.request Demo.five false)).2
               = Success Demo.unfiltered) by (vm_compute; reflexivity).
  assert (Hg : get (Demo.request Demo.five false) "removeStopwords"
                 (JBool true) = Return (JBool false))
    by (vm_compute; reflexivity).
  assert (Hs : Demo.unfiltered_fourth ∈ processedSentences Demo.unfiltered)
    by (apply (list_elem_of_lookup_2 _ 2); vm_compute; reflexivity).
  assert (Hm : ServiceDemo.one_sentence !! "text"
               = Some (JStr (sentence Demo.unfiltered_fourth)))
    by (vm_compute; reflexivity).
  split; [exact Hb|]. split; [exact Hs|]. split; [exact Hm|].
  exact (morpheme_matches_record (runtime := Demo.runtime)
           (service := ServiceDemo.service) "r2" _ _ _ _ _
           Hb Hg eq_refl Hs Hm).
Defined.
